(** * The e-learning dashboard of [src/App.jsx]

    A shallow embedding of the mock [api] object and of the three React
    components [LoginScreen], [Dashboard] and [App], followed by the
    properties of the specification that concern them.

    Conventions of the embedding:
    - a JavaScript value that is [null]/[undefined] or a string is an
      [option string]; its truthiness is [truthy];
    - an [async] function of [api] is a function into [result]: the promise
      it returns is fulfilled ([Resolved]) or rejected ([Rejected]);
    - [new Set(...)] over course ids is a [gset Z];
    - a catalog course and a recommendation are the same kind of object, the
      second one carrying the extra property [reason]; a missing property is
      [None];
    - the console holds the calls of [console.error]; the calls of
      [console.log] are left out. *)

From stdpp Require Import base option list gmap strings pretty.
From Stdlib Require Import ZArith Lia.

Local Open Scope Z_scope.
Local Open Scope string_scope.

(** ** Data of the service *)

(** [new Error(message)] *)
Record Error := MkError { message : string }.

Inductive result (A : Type) : Type :=
| Resolved (a : A)
| Rejected (e : Error).
Arguments Resolved {A} a.
Arguments Rejected {A} e.

(** What [api.login] resolves to. *)
Record LoginData := { access_token : string; token_type : string }.

(** What [api.getMe] resolves to. [enrolled_courses] is read through
    [user.enrolled_courses || []], so the property may be absent. *)
Record User := {
  user_id : Z;
  username : string;
  email : string;
  enrolled_courses : option (list Z)
}.

(** An element of the arrays of [api.getCourses] and
    [api.getRecommendations]. *)
Record Course := {
  id : Z;
  title : string;
  category : string;
  difficulty : string;
  reason : option string
}.

(** The four operations of the [api] object. *)
Record Api := {
  login : string -> string -> result LoginData;
  getMe : option string -> result User;
  getCourses : result (list Course);
  getRecommendations : Z -> option string -> result (list Course)
}.

(** [if (v)] for a value that is [null] or a string: the empty string is
    falsy as well. *)
Definition truthy (v : option string) : bool :=
  match v with
  | Some s => negb (String.eqb s "")
  | None => false
  end.

(** ** The mock [api] *)

Definition InvalidCredentials : Error := MkError "Invalid credentials".
Definition NotAuthenticated : Error := MkError "Not authenticated".

Definition mock_login (username password : string) : result LoginData :=
  if String.eqb username "testuser" && String.eqb password "password"
  then Resolved {| access_token := "fake-jwt-token"; token_type := "bearer" |}
  else Rejected InvalidCredentials.

Definition mock_getMe (token : option string) : result User :=
  if truthy token
  then Resolved {| user_id := 1;
                   username := "testuser";
                   email := "test@example.com";
                   enrolled_courses := Some [101; 103] |}
  else Rejected NotAuthenticated.

Definition mock_getCourses : result (list Course) :=
  Resolved
    [ {| id := 101; title := "Introduction to Python";
         category := "Programming"; difficulty := "Beginner"; reason := None |};
      {| id := 102; title := "Advanced Python";
         category := "Programming"; difficulty := "Advanced"; reason := None |};
      {| id := 103; title := "Data Science with Pandas";
         category := "Data Science"; difficulty := "Intermediate"; reason := None |};
      {| id := 104; title := "Machine Learning Fundamentals";
         category := "Data Science"; difficulty := "Intermediate"; reason := None |};
      {| id := 105; title := "Web Development with React";
         category := "Web Development"; difficulty := "Beginner"; reason := None |} ].

Definition mock_getRecommendations (userId : Z) (token : option string)
  : result (list Course) :=
  if truthy token
  then Resolved
    [ {| id := 102; title := "Advanced Python";
         category := "Programming"; difficulty := "Advanced";
         reason := Some "Because you are taking 'Introduction to Python'" |};
      {| id := 104; title := "Machine Learning Fundamentals";
         category := "Data Science"; difficulty := "Intermediate";
         reason := Some "Because you are taking 'Data Science with Pandas'" |} ]
  else Rejected NotAuthenticated.

Definition api : Api := {|
  login := mock_login;
  getMe := mock_getMe;
  getCourses := mock_getCourses;
  getRecommendations := mock_getRecommendations
|}.

(** A token string is issued when some call of [api.login] resolves to it. *)
Definition issued (t : string) : Prop :=
  exists username password data,
    login api username password = Resolved data /\ access_token data = t.

(** A token value is invalid when it is a string that was never issued. *)
Definition invalid_token (token : option string) : Prop :=
  exists t, token = Some t /\ ~ issued t.

Definition is_rejected {A} (r : result A) (e : Error) : Prop := r = Rejected e.
Definition is_resolved {A} (r : result A) : Prop := exists a, r = Resolved a.

(** ** [CourseCard] *)

(** The [key] of a list element: [`rec-${rec.id}`] or [course.id]. *)
Definition rec_key (c : Course) : string := "rec-" +:+ pretty (id c).
Definition course_key (c : Course) : string := pretty (id c).

(** The props of a [<CourseCard .../>] element; a prop that is not passed is
    [None]. *)
Record CourseCardProps := {
  key : string;
  course : Course;
  isEnrolled : option bool;
  card_reason : option string
}.

(** What a card shows: the three texts, the highlighted background and the
    two optional paragraphs. *)
Record Card := {
  shown_title : string;
  shown_category : string;
  shown_difficulty : string;
  highlighted : bool;
  enrolled_badge : bool;
  reason_line : option string
}.

Definition truthy_bool (v : option bool) : bool := default false v.

Definition CourseCard (p : CourseCardProps) : Card := {|
  shown_title := title (course p);
  shown_category := category (course p);
  shown_difficulty := difficulty (course p);
  highlighted := truthy_bool (isEnrolled p);
  enrolled_badge := truthy_bool (isEnrolled p);
  reason_line := if truthy (card_reason p) then card_reason p else None
|}.

(** ** The view model of [Dashboard] *)

(** [new Set(user.enrolled_courses || [])] *)
Definition enrolledCourseIds (user : User) : gset Z :=
  list_to_set (default [] (enrolled_courses user)).

(** [enrolledCourseIds.has(x)] *)
Definition has (s : gset Z) (x : Z) : bool := bool_decide (x ∈ s).

(** [recommendations.map(rec => <CourseCard .../>)] *)
Definition recommendation_cards (recommendations : list Course)
  : list CourseCardProps :=
  map (fun rec => {| key := rec_key rec; course := rec;
                     isEnrolled := None; card_reason := reason rec |})
      recommendations.

(** [courses.map(course => <CourseCard .../>)] *)
Definition course_cards (enrolled : gset Z) (courses : list Course)
  : list CourseCardProps :=
  map (fun c => {| key := course_key c; course := c;
                   isEnrolled := Some (has enrolled (id c));
                   card_reason := None |})
      courses.

(** The two sections of the rendered dashboard. *)
Record DashboardView := {
  welcome : string;
  recommended_section : list CourseCardProps;
  all_courses_section : list CourseCardProps
}.

Definition dashboard_view (user : User) (courses recommendations : list Course)
  : DashboardView := {|
  welcome := username user;
  recommended_section := recommendation_cards recommendations;
  all_courses_section := course_cards (enrolledCourseIds user) courses
|}.

(** ** [LoginScreen] *)

Module LoginScreen.

Record state := {
  username : string;
  password : string;
  error : string;
  loading : bool
}.

Definition init : state :=
  {| username := "testuser"; password := "password";
     error := ""; loading := false |}.

(** [handleLogin]: the new local state (after [finally]) and the argument
    of the call [setToken(data.access_token)], when it is made. *)
Definition handleLogin (svc : Api) (st : state) : state * option string :=
  match login svc (username st) (password st) with
  | Resolved data =>
      ({| username := username st; password := password st;
          error := ""; loading := false |},
       Some (access_token data))
  | Rejected err =>
      ({| username := username st; password := password st;
          error := message err; loading := false |},
       None)
  end.

End LoginScreen.

(** ** [Dashboard] *)

(** A call of [console.error(label, error)]. *)
Record LogEntry := { label : string; logged : Error }.

Module Dashboard.

(** A call of [fetchData] suspended at [await Promise.all([...])]: the
    arguments captured by the closure and, for each of the two promises,
    the value it was fulfilled with ([None] while it is pending). A
    rejection of either promise ends the call at once. *)
Record fetch := {
  userId : Z;
  fetch_token : option string;
  coursesData : option (list Course);
  recsData : option (list Course)
}.

Record state := {
  courses : list Course;
  recommendations : list Course;
  loading : bool;
  inflight : list fetch
}.

Definition init : state :=
  {| courses := []; recommendations := []; loading := true; inflight := [] |}.

(** [fetchData] up to its [await]: [setLoading(true)], then the two
    requests are issued together. *)
Definition fetchData (user : User) (token : option string) (st : state) : state :=
  {| courses := courses st; recommendations := recommendations st;
     loading := true;
     inflight := inflight st ++
       [ {| userId := user_id user; fetch_token := token;
            coursesData := None; recsData := None |} ] |}.

(** The effect on [[user, token]]: [if (user && token) fetchData()]. The
    prop [user] is an object whenever [App] renders the dashboard. *)
Definition effect (user : User) (token : option string) (st : state) : state :=
  if truthy token then fetchData user token st else st.

Inductive promise := CoursesPromise | RecsPromise.

(** The [try] branch after the [await], then [finally]. *)
Definition fulfilled (k : nat) (cs rs : list Course) (st : state) : state :=
  {| courses := cs; recommendations := rs; loading := false;
     inflight := delete k (inflight st) |}.

(** The [catch] branch, then [finally]. *)
Definition failed (k : nat) (st : state) : state :=
  {| courses := courses st; recommendations := recommendations st;
     loading := false; inflight := delete k (inflight st) |}.

Definition waiting (k : nat) (f : fetch) (st : state) : state :=
  {| courses := courses st; recommendations := recommendations st;
     loading := loading st; inflight := <[k := f]> (inflight st) |}.

Definition dashboard_error (e : Error) : LogEntry :=
  {| label := "Failed to fetch dashboard data:"; logged := e |}.

(** What the service answers to the call behind promise [p]. *)
Definition answer (svc : Api) (p : promise) (f : fetch) : result (list Course) :=
  match p with
  | CoursesPromise => getCourses svc
  | RecsPromise => getRecommendations svc (userId f) (fetch_token f)
  end.

Definition slot (p : promise) (f : fetch) : option (list Course) :=
  match p with
  | CoursesPromise => coursesData f
  | RecsPromise => recsData f
  end.

Definition other (p : promise) : promise :=
  match p with
  | CoursesPromise => RecsPromise
  | RecsPromise => CoursesPromise
  end.

Definition fill (p : promise) (v : list Course) (f : fetch) : fetch :=
  match p with
  | CoursesPromise =>
      {| userId := userId f; fetch_token := fetch_token f;
         coursesData := Some v; recsData := recsData f |}
  | RecsPromise =>
      {| userId := userId f; fetch_token := fetch_token f;
         coursesData := coursesData f; recsData := Some v |}
  end.

(** [[coursesData, recsData]] from the value [v] of promise [p] and the
    value [o] of the other one. *)
Definition both (p : promise) (v o : list Course) : list Course * list Course :=
  match p with
  | CoursesPromise => (v, o)
  | RecsPromise => (o, v)
  end.

(** Promise [p] of the [k]-th suspended [fetchData] settles with what the
    service answers. [Promise.all] rejects with the first rejection and
    is fulfilled once both promises are. [None]: there is no such pending
    promise. *)
Definition settle (svc : Api) (k : nat) (p : promise) (st : state)
  : option (state * list LogEntry) :=
  match inflight st !! k with
  | None => None
  | Some f =>
      match slot p f with
      | Some _ => None
      | None =>
          match answer svc p f with
          | Rejected e => Some (failed k st, [dashboard_error e])
          | Resolved v =>
              match slot (other p) f with
              | Some o =>
                  let '(cs, rs) := both p v o in
                  Some (fulfilled k cs rs st, [])
              | None => Some (waiting k (fill p v f) st, [])
              end
          end
      end
  end.

(** What the component returns. *)
Inductive rendered :=
| LoadingDashboard
| Ready (v : DashboardView).

Definition render (user : User) (st : state) : rendered :=
  if loading st then LoadingDashboard
  else Ready (dashboard_view user (courses st) (recommendations st)).

End Dashboard.

(** ** [App] *)

Module App.

Record state := {
  token : option string;
  user : option User;
  loading : bool
}.

Definition init : state := {| token := None; user := None; loading := true |}.

(** What the component returns: the placeholder, [<LoginScreen/>] or
    [<Dashboard user token/>]. *)
Inductive element :=
| Authenticating
| ShowLogin
| ShowDashboard (user : User) (token : option string).

Definition render (st : state) : element :=
  if loading st then Authenticating
  else match user st with
       | Some u => if truthy (token st) then ShowDashboard u (token st)
                   else ShowLogin
       | None => ShowLogin
       end.

End App.

(** ** The running application

    The state of the tree of components, the calls of [api.getMe] that are
    suspended at their [await], and the console. The calls of [api.getMe],
    [api.getCourses] and [api.getRecommendations] settle at any later time;
    [api.login] is awaited by the form handler and taken in one step with
    it. A state setter called with the current value does nothing; a
    component that is unmounted loses its local state, and the
    continuations of its suspended calls have no effect any more. *)

Inductive screen :=
| NoScreen
| LoginScreenS (ls : LoginScreen.state)
| DashboardS (ds : Dashboard.state).

Record world := {
  app : App.state;
  me_inflight : list (option string);
  child : screen;
  console : list LogEntry
}.

Definition token (w : world) : option string := App.token (app w).
Definition user (w : world) : option User := App.user (app w).

(** [SubmitLogin u p]: the form is submitted with [u] and [p] in its two
    inputs. [SettleMe k]: the [k]-th suspended call of [api.getMe] settles.
    [SettleCourses k], [SettleRecs k]: one of the two promises of the [k]-th
    suspended [fetchData] of the mounted dashboard settles. *)
Inductive event :=
| SubmitLogin (username password : string)
| ClickLogout
| SettleMe (k : nat)
| SettleCourses (k : nat)
| SettleRecs (k : nat).

(** The child of [App] after a render: a child of the same component keeps
    its local state, and [Dashboard] runs its effect again when [user] or
    [token] changed; otherwise the child is mounted afresh. *)
Definition reconcile (deps_changed : bool) (a : App.state) (s : screen) : screen :=
  match App.render a with
  | App.Authenticating => NoScreen
  | App.ShowLogin =>
      match s with
      | LoginScreenS ls => LoginScreenS ls
      | _ => LoginScreenS LoginScreen.init
      end
  | App.ShowDashboard u tok =>
      match s with
      | DashboardS ds =>
          DashboardS (if deps_changed then Dashboard.effect u tok ds else ds)
      | _ => DashboardS (Dashboard.effect u tok Dashboard.init)
      end
  end.

Definition rerender (deps_changed : bool) (a : App.state) (w : world) : world :=
  {| app := a; me_inflight := me_inflight w;
     child := reconcile deps_changed a (child w); console := console w |}.

Definition setLoading (b : bool) (w : world) : world :=
  if Bool.eqb b (App.loading (app w)) then w
  else rerender false {| App.token := token w; App.user := user w;
                         App.loading := b |} w.

(** [setUser(userData)]: [userData] is a fresh object. *)
Definition setUser (u : User) (w : world) : world :=
  rerender true {| App.token := token w; App.user := Some u;
                   App.loading := App.loading (app w) |} w.

(** The effect of [App] on [[token]]. *)
Definition fetchUser (w : world) : world :=
  if truthy (token w)
  then {| app := app w; me_inflight := me_inflight w ++ [token w];
          child := child w; console := console w |}
  else setLoading false w.

Definition setToken (v : option string) (w : world) : world :=
  if decide (v = token w) then w
  else fetchUser (rerender true {| App.token := v; App.user := user w;
                                   App.loading := App.loading (app w) |} w).

Definition user_error (e : Error) : LogEntry :=
  {| label := "Failed to fetch user:"; logged := e |}.

Definition log (entries : list LogEntry) (w : world) : world :=
  {| app := app w; me_inflight := me_inflight w; child := child w;
     console := console w ++ entries |}.

Definition with_child (s : screen) (w : world) : world :=
  {| app := app w; me_inflight := me_inflight w; child := s;
     console := console w |}.

(** The continuation of [fetchUser] after [await api.getMe(token)]. *)
Definition settleMe (svc : Api) (k : nat) (w : world) : option world :=
  match me_inflight w !! k with
  | None => None
  | Some tok =>
      let w1 := {| app := app w; me_inflight := delete k (me_inflight w);
                   child := child w; console := console w |} in
      match getMe svc tok with
      | Resolved userData => Some (setLoading false (setUser userData w1))
      | Rejected e =>
          Some (setLoading false (setToken None (log [user_error e] w1)))
      end
  end.

Definition submitLogin (svc : Api) (username password : string) (w : world)
  : option world :=
  match child w with
  | LoginScreenS ls =>
      let typed := {| LoginScreen.username := username;
                      LoginScreen.password := password;
                      LoginScreen.error := "";
                      LoginScreen.loading := true |} in
      match LoginScreen.handleLogin svc typed with
      | (ls', Some t) => Some (setToken (Some t) (with_child (LoginScreenS ls') w))
      | (ls', None) => Some (with_child (LoginScreenS ls') w)
      end
  | _ => None
  end.

(** The Logout button is part of the dashboard once it is loaded. *)
Definition clickLogout (w : world) : option world :=
  match child w with
  | DashboardS ds =>
      if Dashboard.loading ds then None else Some (setToken None w)
  | _ => None
  end.

Definition settleDashboard (svc : Api) (k : nat) (p : Dashboard.promise)
  (w : world) : option world :=
  match child w with
  | DashboardS ds =>
      match Dashboard.settle svc k p ds with
      | Some (ds', entries) => Some (log entries (with_child (DashboardS ds') w))
      | None => None
      end
  | _ => None
  end.

(** One event; [None] when the event cannot happen in [w]. *)
Definition step (svc : Api) (w : world) (ev : event) : option world :=
  match ev with
  | SubmitLogin username password => submitLogin svc username password w
  | ClickLogout => clickLogout w
  | SettleMe k => settleMe svc k w
  | SettleCourses k => settleDashboard svc k Dashboard.CoursesPromise w
  | SettleRecs k => settleDashboard svc k Dashboard.RecsPromise w
  end.

Fixpoint run (svc : Api) (evs : list event) (w : world) : option world :=
  match evs with
  | [] => Some w
  | ev :: evs' =>
      match step svc w ev with
      | Some w' => run svc evs' w'
      | None => None
      end
  end.

(** The first render and the first run of the effect of [App]. *)
Definition mount : world :=
  fetchUser (rerender false App.init
    {| app := App.init; me_inflight := []; child := NoScreen; console := [] |}).

(** The child that is mounted is the one [App] renders. *)
Definition consistent (w : world) : Prop :=
  match App.render (app w), child w with
  | App.Authenticating, NoScreen => True
  | App.ShowLogin, LoginScreenS _ => True
  | App.ShowDashboard _ _, DashboardS _ => True
  | _, _ => False
  end.

(** The loaded dashboard is shown, with its Logout button. *)
Definition logged_in (w : world) : Prop :=
  exists ds, child w = DashboardS ds /\ Dashboard.loading ds = false.

(** No token is stored and the login form is shown. *)
Definition logged_out (w : world) : Prop :=
  token w = None /\ exists ls, child w = LoginScreenS ls.

(** A service that answers like [api], except that the recommendations
    cannot be fetched. *)
Definition api_without_recommendations : Api := {|
  login := login api;
  getMe := getMe api;
  getCourses := getCourses api;
  getRecommendations := fun _ _ => Rejected (MkError "Network Error")
|}.

(** ** Measures and invariants of the running application *)

(** The token string [t] is one that [svc.login] resolves to. *)
Definition issued_by (svc : Api) (t : string) : Prop :=
  exists username password data,
    login svc username password = Resolved data /\ access_token data = t.

(** A value of the [token] state: [null], or a string issued by the
    service. *)
Definition from_login (svc : Api) (v : option string) : Prop :=
  v = None \/ exists t, v = Some t /\ issued_by svc t.

(** Every suspended [fetchData] of a mounted dashboard was called with a
    truthy token. *)
Definition fetch_tokens_truthy (s : screen) : Prop :=
  match s with
  | DashboardS ds =>
      Forall (fun f => truthy (Dashboard.fetch_token f) = true)
             (Dashboard.inflight ds)
  | _ => True
  end.

(** What holds in every state the application can reach. *)
Definition invariant (svc : Api) (w : world) : Prop :=
  App.loading (app w) = false /\
  consistent w /\
  from_login svc (token w) /\
  Forall (fun v => truthy v = true /\ from_login svc v) (me_inflight w) /\
  fetch_tokens_truthy (child w).

(** The value of every fulfilled promise of a suspended [fetchData] is
    what the service answers to the request behind it. *)
Definition slots_from_service (svc : Api) (f : Dashboard.fetch) : Prop :=
  forall p v, Dashboard.slot p f = Some v ->
              Dashboard.answer svc p f = Resolved v.

(** The courses and the recommendations of a dashboard are both empty, or
    they are the catalog and a list of recommendations of the service. *)
Definition shows_service_data (svc : Api) (ds : Dashboard.state) : Prop :=
  (Dashboard.courses ds = [] /\ Dashboard.recommendations ds = []) \/
  (getCourses svc = Resolved (Dashboard.courses ds) /\
   exists userId tok,
     getRecommendations svc userId tok
       = Resolved (Dashboard.recommendations ds)).

Definition data_from_service (svc : Api) (w : world) : Prop :=
  (forall u, user w = Some u ->
             exists tok, truthy tok = true /\ getMe svc tok = Resolved u) /\
  match child w with
  | DashboardS ds =>
      shows_service_data svc ds /\
      Forall (slots_from_service svc) (Dashboard.inflight ds)
  | _ => True
  end.





(** Two settlements in a row of promises of the [k]-th [fetchData]. *)
Definition settle_twice (svc : Api) (k : nat) (p q : Dashboard.promise)
  (st : Dashboard.state) : option (Dashboard.state * list LogEntry) :=
  match Dashboard.settle svc k p st with
  | Some (st1, entries1) =>
      match Dashboard.settle svc k q st1 with
      | Some (st2, entries2) => Some (st2, (entries1 ++ entries2)%list)
      | None => None
      end
  | None => None
  end.

(** A service that answers like [api], except that it rejects every
    profile request. *)
Definition api_without_profile : Api := {|
  login := login api;
  getMe := fun _ => Rejected (MkError "Token expired");
  getCourses := getCourses api;
  getRecommendations := getRecommendations api
|}.

(** The profile of the mock service. *)
Definition testuser : User :=
  {| user_id := 1; username := "testuser"; email := "test@example.com";
     enrolled_courses := Some [101; 103] |}.

(** ** Properties of the view model *)

Lemma recommendation_cards_course recs :
  map course (recommendation_cards recs) = recs.
Proof.
  induction recs as [|r recs IH]; simpl; [reflexivity|].
  f_equal. exact IH.
Qed.

Lemma course_cards_course enrolled cs :
  map course (course_cards enrolled cs) = cs.
Proof.
  induction cs as [|c cs IH]; simpl; [reflexivity|].
  f_equal. exact IH.
Qed.

Lemma has_enrolled user x :
  has (enrolledCourseIds user) x = true <->
  x ∈ default [] (enrolled_courses user).
Proof.
  unfold has, enrolledCourseIds.
  rewrite bool_decide_eq_true. apply elem_of_list_to_set.
Qed.

Lemma truthy_spec v : truthy v = false <-> v = None \/ v = Some "".
Proof.
  destruct v as [s|]; simpl.
  - rewrite negb_false_iff, String.eqb_eq. split.
    + intros ->. right. reflexivity.
    + intros [H|H]; [discriminate | congruence].
  - split; [left; reflexivity | reflexivity].
Qed.

Lemma truthy_nonempty t : t <> "" -> truthy (Some t) = true.
Proof.
  intros Hne. simpl. apply negb_true_iff. apply String.eqb_neq. exact Hne.
Qed.

(** C1. Whenever the dashboard is rendered, it lists the catalog in the
    catalog's order and the recommendations in the order in which the
    service returned them: the courses of the cards of each section are the
    stored sequence itself, and so are the titles shown. The reason of every
    recommendation is passed to its card as it is, and the card shows it
    whenever there is one. No recommendation is dropped because its course
    is one of the enrolled ones. *)
Theorem dashboard_preserves_order
  (user : User) (st : Dashboard.state) (v : DashboardView) :
  Dashboard.render user st = Dashboard.Ready v ->
  map course (all_courses_section v) = Dashboard.courses st /\
  map course (recommended_section v) = Dashboard.recommendations st /\
  map (fun p => shown_title (CourseCard p)) (all_courses_section v)
    = map title (Dashboard.courses st) /\
  map (fun p => shown_title (CourseCard p)) (recommended_section v)
    = map title (Dashboard.recommendations st) /\
  map card_reason (recommended_section v)
    = map reason (Dashboard.recommendations st) /\
  map (fun p => reason_line (CourseCard p)) (recommended_section v)
    = map (fun r => if truthy (reason r) then reason r else None)
          (Dashboard.recommendations st) /\
  (forall r, r ∈ Dashboard.recommendations st ->
             id r ∈ enrolledCourseIds user ->
             r ∈ map course (recommended_section v)).
Proof.
  unfold Dashboard.render. destruct (Dashboard.loading st); [discriminate|].
  intros [= <-]. simpl.
  generalize (Dashboard.courses st) as courses.
  generalize (Dashboard.recommendations st) as recs.
  intros recs courses.
  split; [apply course_cards_course|].
  split; [apply recommendation_cards_course|].
  split; [|split; [|split; [|split]]].
  - induction courses as [|c cs IH]; simpl; [reflexivity|].
    f_equal. exact IH.
  - induction recs as [|r rs IH]; simpl; [reflexivity|].
    f_equal. exact IH.
  - induction recs as [|r rs IH]; simpl; [reflexivity|].
    f_equal. exact IH.
  - induction recs as [|r rs IH]; simpl; [reflexivity|].
    f_equal. exact IH.
  - intros r Hin _. rewrite recommendation_cards_course. exact Hin.
Qed.

Lemma dashboard_preserves_order_witness :
  exists profile catalog recs v,
    getMe api (Some "fake-jwt-token") = Resolved profile /\
    getCourses api = Resolved catalog /\
    getRecommendations api 1 (Some "fake-jwt-token") = Resolved recs /\
    Dashboard.render profile
      {| Dashboard.courses := catalog; Dashboard.recommendations := recs;
         Dashboard.loading := false; Dashboard.inflight := [] |}
      = Dashboard.Ready v /\
    map course (all_courses_section v) = catalog /\
    map course (recommended_section v) = recs.
Proof.
  eexists. eexists. eexists. eexists.
  split; [reflexivity|]. split; [reflexivity|]. split; [reflexivity|].
  split; [reflexivity|].
  match goal with
  | |- map course (all_courses_section ?v) = ?cs /\
       map course (recommended_section ?v) = ?rs =>
      destruct (dashboard_preserves_order
                  {| user_id := 1; username := "testuser";
                     email := "test@example.com";
                     enrolled_courses := Some [101; 103] |}
                  {| Dashboard.courses := cs; Dashboard.recommendations := rs;
                     Dashboard.loading := false; Dashboard.inflight := [] |}
                  v eq_refl) as (Hc & Hr & _)
  end.
  split; [exact Hc | exact Hr].
Defined.

(** C2. In the view model, the card of every catalog course [c] carries
    [isEnrolled = enrolledCourseIds.has(c.id)], which holds exactly when
    [c.id] is among the enrolled courses of the user, and the card shows the
    badge accordingly. Aggregating again the courses of the view model with
    the same user gives the same view model. *)
Theorem isEnrolled_is_membership
  (user : User) (courses recommendations : list Course) :
  let enrolled := enrolledCourseIds user in
  let v := dashboard_view user courses recommendations in
  (forall (i : nat) c, courses !! i = Some c ->
     exists p, all_courses_section v !! i = Some p /\ course p = c /\
       isEnrolled p = Some (has enrolled (id c)) /\
       enrolled_badge (CourseCard p) = has enrolled (id c) /\
       (has enrolled (id c) = true <->
        id c ∈ default [] (enrolled_courses user))) /\
  dashboard_view user (map course (all_courses_section v))
                      (map course (recommended_section v)) = v.
Proof.
  simpl. split.
  - intros i c Hi. unfold course_cards.
    exists {| key := course_key c; course := c;
              isEnrolled := Some (has (enrolledCourseIds user) (id c));
              card_reason := None |}.
    split.
    + change (map ?f ?l) with (f <$> l).
      rewrite list_lookup_fmap, Hi. reflexivity.
    + simpl. repeat split; try reflexivity; apply has_enrolled.
  - unfold dashboard_view. simpl.
    rewrite course_cards_course, recommendation_cards_course. reflexivity.
Qed.

(** C3. The happy path against the mock service: the login of
    ["testuser"] with ["password"] yields a token; with that token the
    profile has id 1, username ["testuser"] and enrolled courses 101 and
    103; the catalog has 5 courses; the recommendations for that token are
    2 entries, each with a reason. *)
Theorem happy_path :
  exists data,
    login api "testuser" "password" = Resolved data /\
    truthy (Some (access_token data)) = true /\
    (exists profile,
       getMe api (Some (access_token data)) = Resolved profile /\
       user_id profile = 1 /\ username profile = "testuser" /\
       enrolledCourseIds profile = {[ 101; 103 ]}) /\
    (exists catalog,
       getCourses api = Resolved catalog /\ length catalog = 5%nat) /\
    (exists recs,
       getRecommendations api 1 (Some (access_token data)) = Resolved recs /\
       length recs = 2%nat /\
       Forall (fun r => truthy (reason r) = true) recs).
Proof.
  eexists. split; [reflexivity|]. split; [reflexivity|].
  split; [|split].
  - eexists. split; [reflexivity|].
    split; [reflexivity|]. split; [reflexivity|].
    unfold enrolledCourseIds. simpl. set_solver.
  - eexists. split; reflexivity.
  - eexists. split; [reflexivity|]. split; [reflexivity|].
    repeat constructor.
Qed.

(** The rest of the scenario: once the three fetches have settled, the
    dashboard marks the courses 101 and 103 as enrolled and the others not,
    and lists the two recommendations in their order. *)
Example happy_path_dashboard :
  exists w profile ds v,
    run api [SubmitLogin "testuser" "password"; SettleMe 0;
             SettleCourses 0; SettleRecs 0] mount = Some w /\
    user w = Some profile /\ child w = DashboardS ds /\
    Dashboard.render profile ds = Dashboard.Ready v /\
    map (fun p => (id (course p), isEnrolled p)) (all_courses_section v)
      = [(101, Some true); (102, Some false); (103, Some true);
         (104, Some false); (105, Some false)] /\
    map (fun p => id (course p)) (recommended_section v) = [102; 104].
Proof.
  eexists. eexists. eexists. eexists.
  split; [vm_compute; reflexivity|].
  split; [reflexivity|]. split; [reflexivity|]. split; [reflexivity|].
  split; vm_compute; reflexivity.
Qed.

Lemma issued_fake_jwt t : issued t <-> t = "fake-jwt-token".
Proof.
  split.
  - intros (u & p & data & Hlogin & Htok). simpl in Hlogin.
    unfold mock_login in Hlogin.
    destruct (String.eqb u "testuser" && String.eqb p "password");
      [|discriminate].
    injection Hlogin as <-. symmetry. exact Htok.
  - intros ->. exists "testuser", "password". eexists.
    split; reflexivity.
Qed.

(** C5, as stated, is contradicted by a token that [api.login] never
    issued: [api.getMe] does not reject it. *)
Lemma forged_token_not_rejected :
  ~ (is_rejected (getMe api (Some "forged-token")) NotAuthenticated <->
     (Some "forged-token" = None \/ invalid_token (Some "forged-token"))).
Proof.
  intros [_ H]. unfold is_rejected in H. simpl in H.
  assert (Hinv : invalid_token (Some "forged-token")).
  { exists "forged-token". split; [reflexivity|].
    rewrite issued_fake_jwt. discriminate. }
  specialize (H (or_intror Hinv)). discriminate.
Qed.

(** C5, amended. [api.getMe] is rejected with "Not authenticated" exactly
    when the token is [null] or the empty string and resolves for every
    other string; [api.getRecommendations] is rejected under exactly the
    same condition, whatever the user id. *)
Theorem unauthenticated_iff_falsy_token (token : option string) (userId : Z) :
  (is_rejected (getMe api token) NotAuthenticated <->
     token = None \/ token = Some "") /\
  (is_resolved (getMe api token) <-> ~ (token = None \/ token = Some "")) /\
  (is_rejected (getRecommendations api userId token) NotAuthenticated <->
     is_rejected (getMe api token) NotAuthenticated) /\
  (is_resolved (getRecommendations api userId token) <->
     is_resolved (getMe api token)).
Proof.
  unfold is_rejected, is_resolved. simpl.
  unfold mock_getMe, mock_getRecommendations.
  rewrite <- truthy_spec.
  destruct (truthy token); repeat split; intros; try congruence; eauto;
    try (exfalso; match goal with
                  | H : exists _, Rejected _ = Resolved _ |- _ =>
                      destruct H; discriminate
                  | H : ~ _ |- _ => apply H; reflexivity
                  end).
Qed.

(** C9. Every recommendation of the mock service has the category of some
    catalog course that is among the enrolled courses of the profile. *)
Theorem recommendations_share_category
  (userId : Z) (token token' : option string)
  (recs catalog : list Course) (profile : User) :
  getRecommendations api userId token = Resolved recs ->
  getMe api token' = Resolved profile ->
  getCourses api = Resolved catalog ->
  Forall (fun r => exists c, c ∈ catalog /\
                     id c ∈ enrolledCourseIds profile /\
                     category c = category r) recs.
Proof.
  simpl. unfold mock_getRecommendations, mock_getMe, mock_getCourses.
  destruct (truthy token); [|discriminate].
  destruct (truthy token'); [|discriminate].
  intros [= <-] [= <-] [= <-].
  unfold enrolledCourseIds. simpl.
  repeat constructor.
  - eexists. split; [apply list_elem_of_here|]. split; [set_solver|reflexivity].
  - eexists. split; [do 2 apply list_elem_of_further; apply list_elem_of_here|].
    split; [set_solver|reflexivity].
Qed.

Lemma recommendations_share_category_witness :
  exists recs,
    getRecommendations api 1 (Some "fake-jwt-token") = Resolved recs /\
    Forall (fun r => exists c,
              c ∈ match getCourses api with Resolved cs => cs | _ => [] end /\
              id c ∈ ({[ 101; 103 ]} : gset Z) /\
              category c = category r) recs.
Proof.
  eexists. split; [reflexivity|].
  pose proof (recommendations_share_category 1 (Some "fake-jwt-token")
                (Some "fake-jwt-token") _ _ _ eq_refl eq_refl eq_refl) as H.
  eapply Forall_impl; [exact H|].
  intros r (c & Hc & Hid & Hcat). exists c. split; [exact Hc|].
  split; [|exact Hcat].
  unfold enrolledCourseIds in Hid. simpl in Hid. set_solver.
Defined.

(** C10. Every non-empty token string is accepted by [api.getMe] and by
    [api.getRecommendations], whether [api.login] issued it or not, and the
    answers are the same for any two such tokens. *)
Theorem token_value_is_irrelevant (t1 t2 : string) (userId : Z) :
  t1 <> "" -> t2 <> "" ->
  is_resolved (getMe api (Some t1)) /\
  is_resolved (getRecommendations api userId (Some t1)) /\
  getMe api (Some t1) = getMe api (Some t2) /\
  getRecommendations api userId (Some t1)
    = getRecommendations api userId (Some t2).
Proof.
  intros H1 H2. unfold is_resolved. cbn [getMe getRecommendations api].
  unfold mock_getMe, mock_getRecommendations.
  rewrite (truthy_nonempty t1 H1), (truthy_nonempty t2 H2).
  repeat split; eauto.
Qed.

Lemma token_value_is_irrelevant_witness :
  ~ issued "never-issued" /\
  is_resolved (getMe api (Some "never-issued")) /\
  getMe api (Some "never-issued") = getMe api (Some "fake-jwt-token").
Proof.
  split; [rewrite issued_fake_jwt; discriminate|].
  destruct (token_value_is_irrelevant "never-issued" "fake-jwt-token" 1)
    as (Hme & _ & Heq & _); [discriminate | discriminate |].
  split; [exact Hme | exact Heq].
Defined.

(** ** Properties of the running application *)

Lemma render_dashboard_inv a u tok :
  App.render a = App.ShowDashboard u tok ->
  App.loading a = false /\ App.user a = Some u /\
  App.token a = tok /\ truthy tok = true.
Proof.
  unfold App.render.
  destruct (App.loading a); [discriminate|].
  destruct (App.user a) as [u'|]; [|discriminate].
  destruct (truthy (App.token a)) eqn:Ht; [|discriminate].
  intros [= <- <-]. auto.
Qed.

Lemma render_login a :
  App.loading a = false -> truthy (App.token a) = false ->
  App.render a = App.ShowLogin.
Proof.
  unfold App.render. intros -> ->. destruct (App.user a); reflexivity.
Qed.

Lemma reconcile_consistent d a w : consistent (rerender d a w).
Proof.
  unfold consistent, rerender, reconcile. simpl.
  destruct (App.render a); destruct (child w); exact I.
Qed.

Lemma setLoading_consistent b w : consistent w -> consistent (setLoading b w).
Proof.
  intros Hw. unfold setLoading.
  destruct (Bool.eqb b (App.loading (app w))); [exact Hw|].
  apply reconcile_consistent.
Qed.

Lemma fetchUser_consistent w : consistent w -> consistent (fetchUser w).
Proof.
  intros Hw. unfold fetchUser.
  destruct (truthy (token w)); [exact Hw|].
  apply setLoading_consistent, Hw.
Qed.

Lemma setToken_consistent v w : consistent w -> consistent (setToken v w).
Proof.
  intros Hw. unfold setToken.
  destruct (decide (v = token w)); [exact Hw|].
  apply fetchUser_consistent, reconcile_consistent.
Qed.

Lemma setUser_consistent u w : consistent (setUser u w).
Proof. apply reconcile_consistent. Qed.

Lemma mount_consistent : consistent mount.
Proof. exact I. Qed.

(** Every event keeps the mounted child in line with what [App] renders. *)
Lemma step_consistent svc w ev w' :
  consistent w -> step svc w ev = Some w' -> consistent w'.
Proof.
  intros Hw. destruct ev as [u p| |k|k|k]; simpl.
  - unfold submitLogin. destruct (child w) as [|ls|ds] eqn:Hc; try discriminate.
    assert (Hc' : forall ls', consistent (with_child (LoginScreenS ls') w)).
    { intros ls'. unfold consistent in *. simpl. rewrite Hc in Hw. exact Hw. }
    destruct (LoginScreen.handleLogin svc _) as [ls' [t|]]; intros [= <-].
    + apply setToken_consistent, Hc'.
    + apply Hc'.
  - unfold clickLogout. destruct (child w) as [|ls|ds]; try discriminate.
    destruct (Dashboard.loading ds); [discriminate|]. intros [= <-].
    apply setToken_consistent, Hw.
  - unfold settleMe. destruct (me_inflight w !! k) as [tok|]; [|discriminate].
    destruct (getMe svc tok) as [u|e]; intros [= <-].
    + apply setLoading_consistent, setUser_consistent.
    + apply setLoading_consistent, setToken_consistent. exact Hw.
  - unfold settleDashboard. destruct (child w) as [|ls|ds] eqn:Hc; try discriminate.
    destruct (Dashboard.settle svc k _ ds) as [[ds' entries]|]; [|discriminate].
    intros [= <-]. unfold consistent in *. simpl. rewrite Hc in Hw. exact Hw.
  - unfold settleDashboard. destruct (child w) as [|ls|ds] eqn:Hc; try discriminate.
    destruct (Dashboard.settle svc k _ ds) as [[ds' entries]|]; [|discriminate].
    intros [= <-]. unfold consistent in *. simpl. rewrite Hc in Hw. exact Hw.
Qed.

Lemma run_consistent svc evs : forall w w',
  consistent w -> run svc evs w = Some w' -> consistent w'.
Proof.
  induction evs as [|ev evs IH]; simpl; intros w w' Hw.
  - intros [= <-]. exact Hw.
  - destruct (step svc w ev) as [w1|] eqn:Hstep; [|discriminate].
    apply IH. eapply step_consistent; eassumption.
Qed.

Lemma consistent_dashboard w ds :
  consistent w -> child w = DashboardS ds ->
  App.loading (app w) = false /\ is_Some (user w) /\ truthy (token w) = true.
Proof.
  unfold consistent. intros Hw Hc. rewrite Hc in Hw.
  destruct (App.render (app w)) as [| |u tok] eqn:Hr; try contradiction.
  apply render_dashboard_inv in Hr as (Hl & Hu & Ht & Htr).
  unfold user, token. rewrite Hu, Ht. eauto.
Qed.

Lemma consistent_no_token w :
  consistent w -> token w = None ->
  child w = NoScreen \/ exists ls, child w = LoginScreenS ls.
Proof.
  unfold consistent, token. intros Hw Ht.
  destruct (App.render (app w)) as [| |u tok] eqn:Hr.
  - destruct (child w); try contradiction. left. reflexivity.
  - destruct (child w) as [|ls|]; try contradiction. right. eauto.
  - apply render_dashboard_inv in Hr as (_ & _ & Htok & Htr).
    rewrite Ht in Htok. subst tok. discriminate.
Qed.

(** No event sets [user] back to [null]: [setUser] is only ever called with
    a fetched profile. *)
Lemma user_never_cleared svc w ev w' :
  step svc w ev = Some w' -> is_Some (user w) -> is_Some (user w').
Proof.
  assert (HL : forall b x, is_Some (user x) -> is_Some (user (setLoading b x))).
  { intros b x Hx. unfold setLoading.
    destruct (Bool.eqb b (App.loading (app x))); [exact Hx|exact Hx]. }
  assert (HT : forall v x, is_Some (user x) -> is_Some (user (setToken v x))).
  { intros v x Hx. unfold setToken.
    destruct (decide (v = token x)); [exact Hx|].
    unfold fetchUser. destruct (truthy _); [exact Hx|]. apply HL. exact Hx. }
  intros Hstep Hu. destruct ev as [u p| |k|k|k]; simpl in Hstep.
  - unfold submitLogin in Hstep. destruct (child w); try discriminate.
    destruct (LoginScreen.handleLogin svc _) as [ls' [t|]];
      injection Hstep as <-; [apply HT|]; exact Hu.
  - unfold clickLogout in Hstep. destruct (child w) as [| |ds]; try discriminate.
    destruct (Dashboard.loading ds); [discriminate|].
    injection Hstep as <-. apply HT, Hu.
  - unfold settleMe in Hstep.
    destruct (me_inflight w !! k) as [tok|]; [|discriminate].
    destruct (getMe svc tok) as [u'|e]; injection Hstep as <-.
    + apply HL. eexists. reflexivity.
    + apply HL, HT. exact Hu.
  - unfold settleDashboard in Hstep. destruct (child w); try discriminate.
    destruct (Dashboard.settle svc k _ _) as [[ds' entries]|]; [|discriminate].
    injection Hstep as <-. exact Hu.
  - unfold settleDashboard in Hstep. destruct (child w); try discriminate.
    destruct (Dashboard.settle svc k _ _) as [[ds' entries]|]; [|discriminate].
    injection Hstep as <-. exact Hu.
Qed.

Lemma mock_login_rejects username password :
  (username, password) <> ("testuser", "password") ->
  login api username password = Rejected InvalidCredentials.
Proof.
  intros Hne. simpl. unfold mock_login.
  destruct (String.eqb username "testuser") eqn:Hu;
    destruct (String.eqb password "password") eqn:Hp; try reflexivity.
  apply String.eqb_eq in Hu, Hp. subst. contradiction.
Qed.

(** C4. For every pair other than ("testuser", "password"), [api.login] is
    rejected with "Invalid credentials"; submitting the login form with such
    a pair leaves the state of [App] as it was, so no token is stored and a
    logged-out session stays logged out, starts no profile fetch, and shows
    the message on the form. *)
Theorem invalid_credentials_rejected
  (username password : string) (w : world) (ls : LoginScreen.state) :
  (username, password) <> ("testuser", "password") ->
  child w = LoginScreenS ls ->
  is_rejected (login api username password) InvalidCredentials /\
  exists w',
    step api w (SubmitLogin username password) = Some w' /\
    app w' = app w /\
    me_inflight w' = me_inflight w /\
    console w' = console w /\
    (exists ls', child w' = LoginScreenS ls' /\
                 LoginScreen.error ls' = "Invalid credentials") /\
    (logged_out w -> logged_out w').
Proof.
  intros Hne Hc. pose proof (mock_login_rejects _ _ Hne) as Hrej.
  split; [exact Hrej|].
  simpl. unfold submitLogin, LoginScreen.handleLogin. rewrite Hc. simpl.
  simpl in Hrej. rewrite Hrej.
  eexists. split; [reflexivity|]. simpl.
  do 3 (split; [reflexivity|]).
  split; [eexists; split; reflexivity|].
  intros [Htok _]. split; [exact Htok|]. simpl. eauto.
Qed.

Lemma invalid_credentials_rejected_witness :
  is_rejected (login api "testuser" "wrongpass") InvalidCredentials /\
  exists w', step api mount (SubmitLogin "testuser" "wrongpass") = Some w' /\
             token w' = None /\ me_inflight w' = [].
Proof.
  destruct (invalid_credentials_rejected "testuser" "wrongpass" mount
              LoginScreen.init)
    as (Hrej & w' & Hstep & Happ & Hfly & _); [discriminate | reflexivity |].
  split; [exact Hrej|]. exists w'. split; [exact Hstep|].
  unfold token. rewrite Happ, Hfly. split; reflexivity.
Defined.

(** C6, as stated, is contradicted after a complete first session: the
    Logout button clears the token, and the profile is still stored. *)
Lemma logout_leaves_profile :
  exists w w',
    run api [SubmitLogin "testuser" "password"; SettleMe 0;
             SettleCourses 0; SettleRecs 0] mount = Some w /\
    logged_in w /\
    step api w ClickLogout = Some w' /\
    token w' = None /\ user w' <> None.
Proof.
  eexists. eexists. split; [vm_compute; reflexivity|].
  split; [eexists; split; reflexivity|].
  split; [vm_compute; reflexivity|].
  split; [reflexivity|discriminate].
Qed.

(** C6, amended. From any state in which the loaded dashboard is shown, the
    Logout button sets the token to [null] in the same step and the
    application shows the login screen again; the stored user profile is
    left as it is, and no request is started. *)
Theorem logout_clears_token_only (svc : Api) (w : world) :
  consistent w -> logged_in w ->
  exists w',
    step svc w ClickLogout = Some w' /\
    token w' = None /\
    user w' = user w /\ is_Some (user w') /\
    logged_out w' /\
    me_inflight w' = me_inflight w.
Proof.
  intros Hw (ds & Hc & Hl).
  destruct (consistent_dashboard w ds Hw Hc) as (Hload & [u Hu] & Ht).
  simpl. unfold clickLogout. rewrite Hc, Hl.
  eexists. split; [reflexivity|].
  unfold setToken.
  destruct (decide (None = token w)) as [He|_].
  { rewrite <- He in Ht. discriminate. }
  unfold fetchUser, rerender, token at 1. simpl.
  unfold setLoading. simpl. rewrite Hload. simpl.
  unfold logged_out, token, user. simpl. unfold user in Hu.
  unfold reconcile. rewrite render_login by (simpl; auto).
  rewrite Hc, Hu. repeat split; eauto.
Qed.

Lemma logout_clears_token_only_witness :
  exists w w',
    run api [SubmitLogin "testuser" "password"; SettleMe 0;
             SettleCourses 0; SettleRecs 0] mount = Some w /\
    step api w ClickLogout = Some w' /\
    token w' = None /\ is_Some (user w').
Proof.
  destruct (run api _ mount) as [w|] eqn:Hrun;
    vm_compute in Hrun; [|discriminate].
  injection Hrun as <-.
  match goal with
  | |- exists w0 w', Some ?c = Some w0 /\ _ =>
      destruct (logout_clears_token_only api c) as (w' & Hs & Ht & _ & Hu & _);
      [ exact I | eexists; split; reflexivity | exists c, w' ]
  end.
  split; [reflexivity|]. split; [exact Hs|]. split; [exact Ht | exact Hu].
Defined.

(** C7, as stated, is contradicted in a second session: the Logout button
    is clicked while the profile fetch of the second login is in flight,
    the fetch then resolves, and the final state has the token cleared and
    a user profile stored. *)
Lemma stale_profile_survives_logout :
  exists w7 w8 w9,
    run api [SubmitLogin "testuser" "password"; SettleMe 0;
             SettleCourses 0; SettleRecs 0; ClickLogout;
             SubmitLogin "testuser" "password";
             SettleCourses 0; SettleRecs 0] mount = Some w7 /\
    token w7 = Some "fake-jwt-token" /\
    me_inflight w7 = [Some "fake-jwt-token"] /\
    step api w7 ClickLogout = Some w8 /\
    token w8 = None /\
    me_inflight w8 = [Some "fake-jwt-token"] /\
    step api w8 (SettleMe 0) = Some w9 /\
    me_inflight w9 = [] /\ token w9 = None /\ user w9 <> None.
Proof.
  eexists. eexists. eexists.
  split; [vm_compute; reflexivity|].
  split; [reflexivity|]. split; [reflexivity|].
  split; [vm_compute; reflexivity|].
  split; [reflexivity|]. split; [reflexivity|].
  split; [vm_compute; reflexivity|].
  split; [reflexivity|]. split; [reflexivity|]. discriminate.
Qed.

(** C7, amended. When the token has been cleared while a profile fetch is
    in flight, no dashboard fetch can deliver a result any more (the
    dashboard is unmounted), and when the profile fetch settles the token
    stays [null] and the login screen is shown; but the profile fetch has
    no guard against a stale response: a profile it resolves to is stored
    as [user], and a rejection leaves [user] as it was. *)
Theorem stale_profile_result_is_applied
  (svc : Api) (w : world) (k : nat) (tok : option string) :
  consistent w -> token w = None -> me_inflight w !! k = Some tok ->
  (forall j, step svc w (SettleCourses j) = None /\
             step svc w (SettleRecs j) = None) /\
  exists w',
    step svc w (SettleMe k) = Some w' /\
    token w' = None /\
    (exists ls, child w' = LoginScreenS ls) /\
    match getMe svc tok with
    | Resolved userData => user w' = Some userData
    | Rejected _ => user w' = user w
    end.
Proof.
  intros Hw Ht Hk. split.
  - intros j. simpl. unfold settleDashboard.
    destruct (consistent_no_token w Hw Ht) as [-> | [ls ->]]; auto.
  - simpl. unfold settleMe. rewrite Hk.
    destruct (getMe svc tok) as [u|e]; eexists; (split; [reflexivity|]).
    + unfold setLoading, setUser, rerender, reconcile, App.render,
        token, user in *.
      simpl. rewrite Ht.
      destruct (App.loading (app w)) eqn:Hl; simpl.
      * eauto.
      * split; [reflexivity|]. split; [|reflexivity].
        destruct (child w); eauto.
    + match goal with
      | |- context [setToken None ?w1] =>
          replace (setToken None w1) with w1
      end.
      2:{ unfold setToken. destruct (decide _) as [_|Hn]; [reflexivity|].
          exfalso. apply Hn. symmetry. exact Ht. }
      unfold consistent in Hw.
      unfold setLoading, log, rerender, reconcile, App.render,
        token, user in *.
      simpl. rewrite Ht in *.
      destruct (App.loading (app w)) eqn:Hl; simpl in *.
      * split; [reflexivity|]. split; [|reflexivity].
        destruct (App.user (app w)); destruct (child w); eauto.
      * split; [exact Ht|]. split; [|reflexivity].
        destruct (App.user (app w));
          destruct (child w); try contradiction; eauto.
Qed.

Lemma stale_profile_result_is_applied_witness :
  exists w8 w9,
    run api [SubmitLogin "testuser" "password"; SettleMe 0;
             SettleCourses 0; SettleRecs 0; ClickLogout;
             SubmitLogin "testuser" "password";
             SettleCourses 0; SettleRecs 0; ClickLogout] mount = Some w8 /\
    step api w8 (SettleMe 0) = Some w9 /\
    token w9 = None /\ is_Some (user w9).
Proof.
  destruct (run api _ mount) as [w|] eqn:Hrun;
    vm_compute in Hrun; [|discriminate].
  injection Hrun as <-.
  match goal with
  | |- exists w8 w9, Some ?c = Some w8 /\ _ =>
      destruct (stale_profile_result_is_applied api c 0
                  (Some "fake-jwt-token"))
        as (_ & w9 & Hs & Ht & _ & Hu);
      [ exact I | reflexivity | reflexivity | exists c, w9 ]
  end.
  split; [reflexivity|]. split; [exact Hs|]. split; [exact Ht|].
  simpl in Hu. rewrite Hu. eexists. reflexivity.
Defined.

(** C8, as stated, is contradicted when the recommendations cannot be
    fetched: the catalog fetch succeeds with five courses, and the
    dashboard that is then rendered has no course at all. *)
Lemma failed_recommendations_drop_catalog :
  exists w ds catalog,
    run api_without_recommendations
        [SubmitLogin "testuser" "password"; SettleMe 0;
         SettleCourses 0; SettleRecs 0] mount = Some w /\
    getCourses api_without_recommendations = Resolved catalog /\
    length catalog = 5%nat /\
    child w = DashboardS ds /\
    Dashboard.loading ds = false /\
    Dashboard.courses ds = [].
Proof.
  eexists. eexists. eexists.
  split; [vm_compute; reflexivity|].
  split; [reflexivity|].
  repeat split.
Qed.

(** C8, amended. When one of the two promises of a dashboard fetch settles,
    only the dashboard and the console change. If the promise is rejected,
    the dashboard stops loading with its courses and recommendations as
    they were before the fetch, whatever the other promise delivered, and
    the failure is logged. If it is fulfilled and the other one was
    fulfilled before, the dashboard stops loading with both results. If it
    is fulfilled while the other one is pending, the fetch goes on:
    loading, courses and recommendations are unchanged. *)
Theorem dashboard_fan_in
  (svc : Api) (w w' : world) (ds : Dashboard.state) (k : nat)
  (p : Dashboard.promise) (f : Dashboard.fetch) :
  child w = DashboardS ds ->
  Dashboard.inflight ds !! k = Some f ->
  settleDashboard svc k p w = Some w' ->
  exists ds',
    child w' = DashboardS ds' /\
    app w' = app w /\ me_inflight w' = me_inflight w /\
    match Dashboard.answer svc p f, Dashboard.slot (Dashboard.other p) f with
    | Rejected e, _ =>
        Dashboard.loading ds' = false /\
        Dashboard.courses ds' = Dashboard.courses ds /\
        Dashboard.recommendations ds' = Dashboard.recommendations ds /\
        console w' = (console w ++ [Dashboard.dashboard_error e])%list
    | Resolved v, Some o =>
        Dashboard.loading ds' = false /\
        (Dashboard.courses ds', Dashboard.recommendations ds')
          = Dashboard.both p v o /\
        console w' = console w
    | Resolved v, None =>
        Dashboard.loading ds' = Dashboard.loading ds /\
        Dashboard.courses ds' = Dashboard.courses ds /\
        Dashboard.recommendations ds' = Dashboard.recommendations ds /\
        Dashboard.inflight ds' !! k = Some (Dashboard.fill p v f) /\
        console w' = console w
    end.
Proof.
  intros Hc Hk. unfold settleDashboard, Dashboard.settle. rewrite Hc, Hk.
  destruct (Dashboard.slot p f); [discriminate|].
  destruct (Dashboard.answer svc p f) as [v|e].
  - destruct (Dashboard.slot (Dashboard.other p) f) as [o|].
    + destruct (Dashboard.both p v o) as [cs rs] eqn:Hb.
      intros [= <-]. eexists. split; [reflexivity|]. simpl.
      rewrite app_nil_r. auto.
    + intros [= <-]. eexists. split; [reflexivity|]. simpl.
      rewrite app_nil_r. repeat split.
      apply list_lookup_insert_eq. eapply lookup_lt_Some, Hk.
  - intros [= <-]. eexists. split; [reflexivity|]. simpl. auto 6.
Qed.

Lemma dashboard_fan_in_witness :
  exists w w' ds',
    run api_without_recommendations
        [SubmitLogin "testuser" "password"; SettleMe 0; SettleCourses 0]
        mount = Some w /\
    step api_without_recommendations w (SettleRecs 0) = Some w' /\
    child w' = DashboardS ds' /\
    Dashboard.loading ds' = false /\
    Dashboard.courses ds' = [] /\
    length (console w') = 1%nat.
Proof.
  destruct (run api_without_recommendations _ mount) as [w|] eqn:Hrun;
    vm_compute in Hrun; [|discriminate].
  injection Hrun as <-.
  match goal with
  | |- exists w0 w' ds', Some ?c = Some w0 /\ _ =>
      destruct (step api_without_recommendations c (SettleRecs 0))
        as [w'|] eqn:Hstep; [|vm_compute in Hstep; discriminate];
      change (settleDashboard api_without_recommendations 0
                Dashboard.RecsPromise c = Some w') in Hstep;
      pose proof Hstep as H;
      eapply dashboard_fan_in in H; [|reflexivity|reflexivity];
      cbn in H; destruct H as (ds' & Hc & _ & _ & Hl & Hcs & _ & Hlog);
      exists c, w', ds'
  end.
  split; [reflexivity|]. split; [exact Hstep|]. split; [exact Hc|].
  split; [exact Hl|]. split; [exact Hcs|]. rewrite Hlog. reflexivity.
Defined.

(** ** Further properties of the cards *)

Lemma rec_key_inj c1 c2 : rec_key c1 = rec_key c2 -> id c1 = id c2.
Proof.
  unfold rec_key. intros H. simpl in H. injection H as H.
  apply (inj pretty). exact H.
Qed.

Lemma course_key_inj c1 c2 : course_key c1 = course_key c2 -> id c1 = id c2.
Proof. unfold course_key. apply (inj pretty). Qed.

Lemma NoDup_map_through {A B C : Type} (f : A -> B) (g : A -> C) (l : list A) :
  (forall x y, f x = f y -> g x = g y) ->
  NoDup (map g l) -> NoDup (map f l).
Proof.
  intros Hfg. induction l as [|a l IH]; simpl; intros Hnd.
  - constructor.
  - apply NoDup_cons in Hnd as [Hnotin Hnd].
    apply NoDup_cons. split; [|apply IH, Hnd].
    intros Hin. apply Hnotin.
    apply list_elem_of_In, in_map_iff in Hin as (x & Hx & Hinx).
    apply list_elem_of_In, in_map_iff. exists x.
    split; [apply Hfg, Hx | exact Hinx].
Qed.

(** X1. In the recommendations section no card is marked or highlighted as
    enrolled, also when the recommended course is one of the enrolled
    courses; in the catalog section no card shows a reason, also when the
    course object carries one. *)
Theorem sections_show_one_annotation_each
  (user : User) (courses recommendations : list Course) :
  let v := dashboard_view user courses recommendations in
  Forall (fun p => enrolled_badge (CourseCard p) = false /\
                   highlighted (CourseCard p) = false)
         (recommended_section v) /\
  Forall (fun p => reason_line (CourseCard p) = None)
         (all_courses_section v).
Proof.
  simpl. split.
  - induction recommendations as [|r rs IH]; simpl; constructor; auto.
  - induction courses as [|c cs IH]; simpl; constructor; auto.
Qed.

(** X2. The React keys of the cards of a section are pairwise distinct
    exactly when the ids of the courses of that section are. *)
Theorem keys_distinct_iff_ids_distinct
  (user : User) (courses recommendations : list Course) :
  let v := dashboard_view user courses recommendations in
  (NoDup (map key (all_courses_section v)) <-> NoDup (map id courses)) /\
  (NoDup (map key (recommended_section v)) <-> NoDup (map id recommendations)).
Proof.
  simpl. unfold course_cards, recommendation_cards.
  rewrite !map_map. simpl. split; split.
  - apply NoDup_map_through. intros x y Hxy. unfold course_key. congruence.
  - apply NoDup_map_through. apply course_key_inj.
  - apply NoDup_map_through. intros x y Hxy. unfold rec_key. congruence.
  - apply NoDup_map_through. apply rec_key_inj.
Qed.

(** X3. When the profile has no [enrolled_courses] property, or an empty
    one, every catalog card is rendered as not enrolled. *)
Theorem no_enrolled_courses_no_badge
  (user : User) (courses recommendations : list Course) :
  enrolled_courses user = None \/ enrolled_courses user = Some [] ->
  Forall (fun p => isEnrolled p = Some false /\
                   enrolled_badge (CourseCard p) = false)
         (all_courses_section (dashboard_view user courses recommendations)).
Proof.
  intros Hen. simpl.
  assert (He : enrolledCourseIds user = ∅).
  { unfold enrolledCourseIds. destruct Hen as [-> | ->]; reflexivity. }
  rewrite He.
  induction courses as [|c cs IH]; simpl; constructor; auto.
Qed.

Lemma no_enrolled_courses_no_badge_witness :
  Forall (fun p => isEnrolled p = Some false)
    (all_courses_section
       (dashboard_view
          {| user_id := 7; username := "guest"; email := "";
             enrolled_courses := None |}
          [ {| id := 101; title := "Introduction to Python";
               category := "Programming"; difficulty := "Beginner";
               reason := None |} ] [])).
Proof.
  eapply Forall_impl.
  - apply no_enrolled_courses_no_badge. left. reflexivity.
  - intros p [Hp _]. exact Hp.
Defined.

(** X4. Every token that [api.login] issues is truthy and is accepted by
    [api.getMe], with the profile of the user name that logged in, and by
    [api.getRecommendations] for that profile. *)
Theorem issued_token_is_accepted
  (username0 password : string) (data : LoginData) :
  login api username0 password = Resolved data ->
  truthy (Some (access_token data)) = true /\
  exists profile,
    getMe api (Some (access_token data)) = Resolved profile /\
    username profile = username0 /\
    is_resolved (getRecommendations api (user_id profile)
                   (Some (access_token data))).
Proof.
  simpl. unfold mock_login.
  destruct (String.eqb username0 "testuser") eqn:Hu; [|discriminate].
  destruct (String.eqb password "password"); [|discriminate].
  apply String.eqb_eq in Hu. subst. intros [= <-]. simpl.
  split; [reflexivity|]. eexists. split; [reflexivity|].
  split; [reflexivity|]. eexists. reflexivity.
Qed.

Lemma issued_token_is_accepted_witness :
  exists data profile,
    login api "testuser" "password" = Resolved data /\
    getMe api (Some (access_token data)) = Resolved profile /\
    username profile = "testuser".
Proof.
  eexists. 
  destruct (issued_token_is_accepted "testuser" "password" _ eq_refl)
    as (_ & profile & Hme & Hname & _).
  exists profile. split; [reflexivity|]. split; [exact Hme | exact Hname].
Defined.

(** ** What every reachable state satisfies *)

Lemma setLoading_false_loaded w :
  App.loading (app w) = false -> setLoading false w = w.
Proof. intros H. unfold setLoading. rewrite H. reflexivity. Qed.

Lemma reconcile_fetch_tokens d a s :
  fetch_tokens_truthy s -> fetch_tokens_truthy (reconcile d a s).
Proof.
  intros Hs. unfold reconcile.
  destruct (App.render a) as [| |u tok] eqn:Hr.
  - exact I.
  - destruct s; exact I.
  - apply render_dashboard_inv in Hr as (_ & _ & _ & Htr).
    assert (Hnew : forall ds,
      Forall (fun f => truthy (Dashboard.fetch_token f) = true)
             (Dashboard.inflight ds) ->
      fetch_tokens_truthy (DashboardS (Dashboard.effect u tok ds))).
    { intros ds Hds. unfold Dashboard.effect. rewrite Htr. simpl.
      apply Forall_app. split; [exact Hds|].
      constructor; [exact Htr | constructor]. }
    destruct s as [|ls|ds].
    + apply Hnew. constructor.
    + apply Hnew. constructor.
    + destruct d; [apply Hnew; exact Hs | exact Hs].
Qed.

Lemma invariant_rerender svc d a w :
  invariant svc w -> App.loading a = false -> from_login svc (App.token a) ->
  invariant svc (rerender d a w).
Proof.
  intros (_ & _ & _ & Hfly & Hds) Hl Ht.
  split; [exact Hl|]. split; [apply reconcile_consistent|].
  split; [exact Ht|]. split; [exact Hfly|].
  simpl. apply reconcile_fetch_tokens, Hds.
Qed.

Lemma invariant_setToken svc v w :
  invariant svc w -> from_login svc v -> invariant svc (setToken v w).
Proof.
  intros Hw Hv. unfold setToken.
  destruct (decide (v = token w)) as [_|_]; [exact Hw|].
  pose proof Hw as (Hl & _).
  assert (Hr : invariant svc
            (rerender true {| App.token := v; App.user := user w;
                              App.loading := App.loading (app w) |} w)).
  { apply invariant_rerender; [exact Hw | exact Hl | exact Hv]. }
  unfold fetchUser. destruct (truthy (token (rerender _ _ _))) eqn:Htr.
  - destruct Hr as (Hl' & Hc' & Ht' & Hfly' & Hds').
    split; [exact Hl'|]. split; [exact Hc'|]. split; [exact Ht'|].
    split; [|exact Hds'].
    simpl. apply Forall_app. split; [exact Hfly'|].
    constructor; [split; [exact Htr | exact Hv] | constructor].
  - rewrite setLoading_false_loaded; [exact Hr | apply Hr].
Qed.

Lemma invariant_setUser svc u w : invariant svc w -> invariant svc (setUser u w).
Proof.
  intros Hw. unfold setUser. apply invariant_rerender; [exact Hw | apply Hw..].
Qed.

Lemma invariant_with_login svc ls ls' w :
  child w = LoginScreenS ls -> invariant svc w ->
  invariant svc (with_child (LoginScreenS ls') w).
Proof.
  intros Hc (Hl & Hcon & Ht & Hfly & _).
  split; [exact Hl|]. split; [|split; [exact Ht|split; [exact Hfly|exact I]]].
  unfold consistent in *. simpl. rewrite Hc in Hcon. exact Hcon.
Qed.

Lemma invariant_settleDashboard svc k p w w' :
  invariant svc w -> settleDashboard svc k p w = Some w' -> invariant svc w'.
Proof.
  intros (Hl & Hcon & Ht & Hfly & Hds). unfold settleDashboard.
  destruct (child w) as [| |ds] eqn:Hc; try discriminate.
  destruct (Dashboard.settle svc k p ds) as [[ds' entries]|] eqn:Hs;
    [|discriminate].
  intros [= <-].
  split; [exact Hl|]. split.
  { unfold consistent in *. simpl. rewrite Hc in Hcon. exact Hcon. }
  split; [exact Ht|]. split; [exact Hfly|]. simpl in *.
  unfold Dashboard.settle in Hs.
  destruct (Dashboard.inflight ds !! k) as [f|] eqn:Hk; [|discriminate].
  assert (Hf : truthy (Dashboard.fetch_token f) = true).
  { eapply Forall_lookup_1 in Hds; [exact Hds | exact Hk]. }
  destruct (Dashboard.slot p f); [discriminate|].
  destruct (Dashboard.answer svc p f) as [v|e].
  - destruct (Dashboard.slot (Dashboard.other p) f) as [o|].
    + destruct (Dashboard.both p v o). injection Hs as <- _.
      simpl. apply Forall_delete, Hds.
    + injection Hs as <- _. simpl. apply Forall_insert; [exact Hds|].
      destruct p; exact Hf.
  - injection Hs as <- _. simpl. apply Forall_delete, Hds.
Qed.

Lemma invariant_mount svc : invariant svc mount.
Proof.
  split; [reflexivity|]. split; [exact I|]. split; [left; reflexivity|].
  split; [constructor | exact I].
Qed.

Lemma invariant_step svc w ev w' :
  invariant svc w -> step svc w ev = Some w' -> invariant svc w'.
Proof.
  intros Hw. destruct ev as [u p| |k|k|k]; simpl.
  - unfold submitLogin, LoginScreen.handleLogin.
    destruct (child w) as [|ls|] eqn:Hc; try discriminate. simpl.
    destruct (login svc u p) as [data|e] eqn:Hlogin; intros [= <-].
    + apply invariant_setToken.
      * eapply invariant_with_login; eassumption.
      * right. eexists. split; [reflexivity|]. exists u, p, data. auto.
    + eapply invariant_with_login; eassumption.
  - unfold clickLogout. destruct (child w) as [| |ds]; try discriminate.
    destruct (Dashboard.loading ds); [discriminate|]. intros [= <-].
    apply invariant_setToken; [exact Hw | left; reflexivity].
  - unfold settleMe.
    destruct (me_inflight w !! k) as [tok|]; [|discriminate].
    assert (Hw1 : invariant svc
              {| app := app w; me_inflight := delete k (me_inflight w);
                 child := child w; console := console w |}).
    { destruct Hw as (Hl & Hcon & Ht & Hfly & Hds).
      split; [exact Hl|]. split; [exact Hcon|]. split; [exact Ht|].
      split; [|exact Hds]. simpl. apply Forall_delete, Hfly. }
    destruct (getMe svc tok) as [u|e]; intros [= <-].
    + pose proof (invariant_setUser svc u _ Hw1) as Hw2.
      rewrite setLoading_false_loaded; [exact Hw2 | apply Hw2].
    + assert (Hw2 : invariant svc (setToken None (log [user_error e]
                {| app := app w; me_inflight := delete k (me_inflight w);
                   child := child w; console := console w |}))).
      { apply invariant_setToken; [exact Hw1 | left; reflexivity]. }
      rewrite setLoading_false_loaded; [exact Hw2 | apply Hw2].
  - apply invariant_settleDashboard, Hw.
  - apply invariant_settleDashboard, Hw.
Qed.

Lemma invariant_run svc evs : forall w0 w,
  invariant svc w0 -> run svc evs w0 = Some w -> invariant svc w.
Proof.
  induction evs as [|ev evs IH]; simpl; intros w0 w Hw0.
  - intros [= <-]. exact Hw0.
  - destruct (step svc w0 ev) as [w1|] eqn:Hstep; [|discriminate].
    apply IH. eapply invariant_step; eassumption.
Qed.

(** X5. In every state the application reaches after it is mounted: the
    "Authenticating..." placeholder is not shown any more; the dashboard is
    shown exactly when a truthy token and a profile are stored; the stored
    token is [null] or a token that the service issued at a login, and
    every profile request and dashboard request in flight was made with a
    truthy token. *)
Theorem reachable_states (svc : Api) (evs : list event) (w : world) :
  run svc evs mount = Some w ->
  App.loading (app w) = false /\
  ((exists ds, child w = DashboardS ds) <->
     truthy (token w) = true /\ is_Some (user w)) /\
  ((exists ls, child w = LoginScreenS ls) <->
     truthy (token w) = false \/ user w = None) /\
  from_login svc (token w) /\
  Forall (fun v => truthy v = true /\ from_login svc v) (me_inflight w) /\
  fetch_tokens_truthy (child w).
Proof.
  intros Hrun.
  pose proof (invariant_run svc evs mount w (invariant_mount svc) Hrun)
    as (Hl & Hcon & Ht & Hfly & Hds).
  split; [exact Hl|]. split; [|split; [|auto]].
  - unfold consistent, App.render, token, user in *. rewrite Hl in Hcon.
    destruct (App.user (app w)) as [u|];
      [destruct (truthy (App.token (app w)))|];
      destruct (child w); try contradiction; split;
      try (intros [? ?]; discriminate);
      try (intros [? [? ?]]; discriminate); eauto.
  - unfold consistent, App.render, token, user in *. rewrite Hl in Hcon.
    destruct (App.user (app w)) as [u|];
      [destruct (truthy (App.token (app w)))|];
      destruct (child w); try contradiction; split;
      try (intros [? ?]; discriminate);
      try (intros [?|?]; discriminate); eauto.
Qed.

Lemma reachable_states_witness :
  exists w,
    run api [SubmitLogin "testuser" "password"; SettleMe 0] mount = Some w /\
    (exists ds, child w = DashboardS ds) /\
    truthy (token w) = true /\ is_Some (user w).
Proof.
  destruct (run api _ mount) as [w|] eqn:Hrun; [|vm_compute in Hrun; discriminate].
  exists w. split; [reflexivity|].
  destruct (reachable_states api _ w Hrun) as (_ & Hdash & _).
  vm_compute in Hrun. injection Hrun as <-.
  split; [eexists; reflexivity|]. apply Hdash. eexists. reflexivity.
Defined.

(** ** What the state setters leave alone *)

Lemma setLoading_frame b w :
  token (setLoading b w) = token w /\
  user (setLoading b w) = user w /\
  me_inflight (setLoading b w) = me_inflight w /\
  console (setLoading b w) = console w.
Proof.
  unfold setLoading. destruct (Bool.eqb b (App.loading (app w))); auto.
Qed.

Lemma setUser_frame u w :
  token (setUser u w) = token w /\
  user (setUser u w) = Some u /\
  me_inflight (setUser u w) = me_inflight w /\
  console (setUser u w) = console w.
Proof. auto. Qed.

Lemma setToken_frame v w :
  token (setToken v w) = v /\
  user (setToken v w) = user w /\
  console (setToken v w) = console w /\
  me_inflight (setToken v w)
    = if decide (v = token w) then me_inflight w
      else if truthy v then (me_inflight w ++ [v])%list else me_inflight w.
Proof.
  unfold setToken. destruct (decide (v = token w)) as [->|Hne]; [auto|].
  unfold fetchUser.
  set (w1 := rerender true _ w).
  change (token w1) with v.
  destruct (truthy v); [auto|].
  destruct (setLoading_frame false w1) as (Ht & Hu & Hf & Hc).
  rewrite Ht, Hu, Hf, Hc. auto.
Qed.

Lemma settle_mock_logs_nothing k p ds ds' entries :
  Forall (fun f => truthy (Dashboard.fetch_token f) = true)
         (Dashboard.inflight ds) ->
  Dashboard.settle api k p ds = Some (ds', entries) -> entries = [].
Proof.
  intros Hds. unfold Dashboard.settle.
  destruct (Dashboard.inflight ds !! k) as [f|] eqn:Hk; [|discriminate].
  eapply Forall_lookup_1 in Hds; [|exact Hk]. simpl in Hds.
  destruct (Dashboard.slot p f); [discriminate|].
  assert (Hans : exists v, Dashboard.answer api p f = Resolved v).
  { destruct p; simpl; [eexists; reflexivity|].
    unfold mock_getRecommendations. rewrite Hds. eexists. reflexivity. }
  destruct Hans as [v ->].
  destruct (Dashboard.slot (Dashboard.other p) f) as [o|].
  - destruct (Dashboard.both p v o). intros [= _ <-]. reflexivity.
  - intros [= _ <-]. reflexivity.
Qed.

Lemma mock_step w ev w' :
  invariant api w -> step api w ev = Some w' ->
  console w = [] ->
  user w = None \/ user w = Some testuser ->
  console w' = [] /\ (user w' = None \/ user w' = Some testuser).
Proof.
  intros Hw Hstep Hcon Hu. destruct ev as [u p| |k|k|k]; simpl in Hstep.
  - unfold submitLogin in Hstep.
    destruct (child w) as [|ls|]; try discriminate.
    destruct (LoginScreen.handleLogin api _) as [ls' [t|]];
      injection Hstep as <-; [|auto].
    match goal with
    | |- context [setToken ?v ?x] =>
        destruct (setToken_frame v x) as (_ & -> & -> & _)
    end. auto.
  - unfold clickLogout in Hstep.
    destruct (child w) as [| |ds]; try discriminate.
    destruct (Dashboard.loading ds); [discriminate|].
    injection Hstep as <-.
    destruct (setToken_frame None w) as (_ & -> & -> & _). auto.
  - unfold settleMe in Hstep.
    destruct (me_inflight w !! k) as [tok|] eqn:Hk; [|discriminate].
    destruct Hw as (_ & _ & _ & Hfly & _).
    eapply Forall_lookup_1 in Hfly as [Htr _]; [|exact Hk].
    simpl in Hstep. unfold mock_getMe in Hstep. rewrite Htr in Hstep.
    injection Hstep as <-.
    match goal with
    | |- context [setLoading false ?x] =>
        destruct (setLoading_frame false x) as (_ & -> & _ & ->)
    end. simpl. auto.
  - unfold settleDashboard in Hstep.
    destruct (child w) as [| |ds] eqn:Hc; try discriminate.
    destruct (Dashboard.settle api k _ ds) as [[ds' entries]|] eqn:Hs;
      [|discriminate].
    injection Hstep as <-. simpl.
    destruct Hw as (_ & _ & _ & _ & Hds). rewrite Hc in Hds.
    rewrite (settle_mock_logs_nothing _ _ _ _ _ Hds Hs), app_nil_r. auto.
  - unfold settleDashboard in Hstep.
    destruct (child w) as [| |ds] eqn:Hc; try discriminate.
    destruct (Dashboard.settle api k _ ds) as [[ds' entries]|] eqn:Hs;
      [|discriminate].
    injection Hstep as <-. simpl.
    destruct Hw as (_ & _ & _ & _ & Hds). rewrite Hc in Hds.
    rewrite (settle_mock_logs_nothing _ _ _ _ _ Hds Hs), app_nil_r. auto.
Qed.

(** X6. Against the mock service no run of the application ever logs an
    error; the stored token is always [null] or ['fake-jwt-token'], and the
    stored profile is always [null] or the profile of testuser. *)
Theorem mock_runs_never_fail (evs : list event) (w : world) :
  run api evs mount = Some w ->
  console w = [] /\
  (token w = None \/ token w = Some "fake-jwt-token") /\
  (user w = None \/ user w = Some testuser).
Proof.
  intros Hrun.
  pose proof (invariant_run api evs mount w (invariant_mount api) Hrun)
    as (_ & _ & Ht & _).
  assert (Hcu : console w = [] /\ (user w = None \/ user w = Some testuser)).
  { revert Hrun.
    assert (H0 : console mount = [] /\
                 (user mount = None \/ user mount = Some testuser))
      by (split; [reflexivity | left; reflexivity]).
    revert H0. generalize (invariant_mount api). generalize mount.
    induction evs as [|ev evs IH]; simpl; intros w0 Hinv [Hc0 Hu0].
    - intros [= <-]. auto.
    - destruct (step api w0 ev) as [w1|] eqn:Hstep; [|discriminate].
      apply IH.
      + eapply invariant_step; eassumption.
      + eapply mock_step; eassumption. }
  destruct Hcu as [Hc Hu]. split; [exact Hc|]. split; [|exact Hu].
  destruct Ht as [Ht | (t & Ht & Hiss)]; [left; exact Ht|].
  right. rewrite Ht. f_equal. apply issued_fake_jwt. exact Hiss.
Qed.

Lemma mock_runs_never_fail_witness :
  exists w,
    run api [SubmitLogin "testuser" "password"; SettleMe 0;
             SettleRecs 0; SettleCourses 0; ClickLogout] mount = Some w /\
    console w = [] /\ user w = Some testuser.
Proof.
  destruct (run api _ mount) as [w|] eqn:Hrun; [|vm_compute in Hrun; discriminate].
  exists w. split; [reflexivity|].
  destruct (mock_runs_never_fail _ w Hrun) as (Hc & _ & _).
  split; [exact Hc|].
  vm_compute in Hrun. injection Hrun as <-. reflexivity.
Defined.

(** ** Logging in *)

(** X7. When the login form is submitted and the service answers with a
    truthy token other than the stored one, the token is stored and exactly
    one profile request is started with it, nothing is logged and the
    stored profile is untouched. If no profile is stored the login form
    stays on screen with its error cleared; if a profile is stored (it was
    fetched before a logout), the dashboard is mounted at once for that
    profile and starts its own fetch. *)
Theorem successful_login
  (svc : Api) (w : world) (ls : LoginScreen.state)
  (u p : string) (data : LoginData) :
  child w = LoginScreenS ls ->
  App.loading (app w) = false ->
  login svc u p = Resolved data ->
  Some (access_token data) <> token w ->
  truthy (Some (access_token data)) = true ->
  exists w',
    step svc w (SubmitLogin u p) = Some w' /\
    token w' = Some (access_token data) /\
    user w' = user w /\
    me_inflight w' = (me_inflight w ++ [Some (access_token data)])%list /\
    console w' = console w /\
    match user w with
    | None => exists ls', child w' = LoginScreenS ls' /\
                          LoginScreen.error ls' = ""
    | Some profile =>
        child w' = DashboardS (Dashboard.fetchData profile
                                 (Some (access_token data)) Dashboard.init)
    end.
Proof.
  intros Hc Hl Hlogin Hne Htr.
  cbn [step]. unfold submitLogin, LoginScreen.handleLogin. rewrite Hc.
  cbn [LoginScreen.username LoginScreen.password]. rewrite Hlogin.
  eexists. split; [reflexivity|].
  set (w0 := with_child _ w).
  destruct (setToken_frame (Some (access_token data)) w0)
    as (Ht & Hu & Hcon & Hfly).
  change (token w0) with (token w) in *.
  destruct (decide (Some (access_token data) = token w)) as [He|_];
    [contradiction|].
  rewrite Htr in Hfly.
  split; [exact Ht|]. split; [exact Hu|]. split; [exact Hfly|].
  split; [exact Hcon|].
  unfold setToken. change (token w0) with (token w).
  destruct (decide (Some (access_token data) = token w)) as [He|_];
    [contradiction|].
  unfold fetchUser.
  set (w1 := rerender true _ w0).
  change (token w1) with (Some (access_token data)). rewrite Htr.
  cbn [child]. subst w1. unfold rerender. cbn [child].
  unfold reconcile, App.render. cbn [App.loading App.user App.token].
  change (App.loading (app w0)) with (App.loading (app w)).
  rewrite Hl. change (user w0) with (user w).
  change (child w0) with
    (LoginScreenS {| LoginScreen.username := u; LoginScreen.password := p;
                     LoginScreen.error := ""; LoginScreen.loading := false |}).
  destruct (user w) as [profile|].
  - rewrite Htr. unfold Dashboard.effect. rewrite Htr. reflexivity.
  - eexists. split; reflexivity.
Qed.

Lemma successful_login_witness :
  exists w',
    step api mount (SubmitLogin "testuser" "password") = Some w' /\
    token w' = Some "fake-jwt-token" /\
    me_inflight w' = [Some "fake-jwt-token"].
Proof.
  destruct (successful_login api mount LoginScreen.init
              "testuser" "password" _ eq_refl eq_refl eq_refl)
    as (w' & Hs & Ht & _ & Hf & _); [discriminate | reflexivity |].
  exists w'. split; [exact Hs|]. split; [exact Ht | exact Hf].
Defined.

(** X8. Submitting the login form when the service answers with the token
    that is already stored changes nothing but the form: the state of [App]
    is the same and no second profile request is started. *)
Theorem repeated_login_is_idle
  (svc : Api) (w : world) (ls : LoginScreen.state)
  (u p : string) (data : LoginData) :
  child w = LoginScreenS ls ->
  login svc u p = Resolved data ->
  token w = Some (access_token data) ->
  exists w' ls',
    step svc w (SubmitLogin u p) = Some w' /\
    app w' = app w /\
    me_inflight w' = me_inflight w /\
    console w' = console w /\
    child w' = LoginScreenS ls'.
Proof.
  intros Hc Hlogin Ht.
  cbn [step]. unfold submitLogin, LoginScreen.handleLogin. rewrite Hc.
  cbn [LoginScreen.username LoginScreen.password]. rewrite Hlogin.
  set (w0 := with_child _ w).
  unfold setToken. change (token w0) with (token w).
  destruct (decide (Some (access_token data) = token w)) as [_|Hne];
    [|congruence].
  eexists. eexists. split; [reflexivity|].
  do 3 (split; [reflexivity|]). reflexivity.
Qed.

Lemma repeated_login_is_idle_witness :
  exists w w',
    step api mount (SubmitLogin "testuser" "password") = Some w /\
    step api w (SubmitLogin "testuser" "password") = Some w' /\
    me_inflight w' = [Some "fake-jwt-token"].
Proof.
  destruct (step api mount _) as [w|] eqn:Hstep;
    vm_compute in Hstep; [|discriminate].
  injection Hstep as <-.
  match goal with
  | |- exists w0 w', Some ?c = Some w0 /\ _ =>
      destruct (repeated_login_is_idle api c LoginScreen.init
                  "testuser" "password" _ eq_refl eq_refl eq_refl)
        as (w' & ls' & Hs & _ & Hf & _);
      exists c, w'
  end.
  split; [reflexivity|]. split; [exact Hs | exact Hf].
Defined.

(** ** The profile request *)

(** X9. When a profile request is rejected, the error is logged and the
    token is set to [null], whatever token is stored at that time; the
    login form is shown, the stored profile is untouched and the request is
    not made again. *)
Theorem profile_failure_logs_out
  (svc : Api) (w : world) (k : nat) (tok : option string) (e : Error) :
  consistent w ->
  me_inflight w !! k = Some tok ->
  getMe svc tok = Rejected e ->
  exists w',
    step svc w (SettleMe k) = Some w' /\
    token w' = None /\
    user w' = user w /\
    me_inflight w' = delete k (me_inflight w) /\
    console w' = (console w ++ [user_error e])%list /\
    App.loading (app w') = false /\
    exists ls, child w' = LoginScreenS ls.
Proof.
  intros Hw Hk Hrej. cbn [step]. unfold settleMe. rewrite Hk, Hrej.
  eexists. split; [reflexivity|].
  set (w1 := log _ _).
  assert (Hw2 : consistent (setLoading false (setToken None w1))).
  { apply setLoading_consistent, setToken_consistent. exact Hw. }
  destruct (setLoading_frame false (setToken None w1)) as (Ht & Hu & Hf & Hc).
  destruct (setToken_frame None w1) as (Ht' & Hu' & Hc' & Hf').
  rewrite Ht, Hu, Hf, Hc, Ht', Hu', Hc', Hf'. simpl.
  assert (Hl : App.loading (app (setLoading false (setToken None w1))) = false).
  { unfold setLoading.
    destruct (App.loading (app (setToken None w1))) eqn:Hl0; simpl;
      [reflexivity | exact Hl0]. }
  split; [reflexivity|]. split; [reflexivity|].
  split; [destruct (decide (None = token w1)); reflexivity|].
  split; [reflexivity|]. split; [exact Hl|].
  unfold consistent in Hw2. rewrite render_login in Hw2.
  - destruct (child (setLoading false (setToken None w1))) as [|ls|];
      try contradiction. eauto.
  - exact Hl.
  - fold (token (setLoading false (setToken None w1))).
    rewrite Ht, Ht'. reflexivity.
Qed.

Lemma profile_failure_logs_out_witness :
  exists w w',
    step api_without_profile mount (SubmitLogin "testuser" "password")
      = Some w /\
    token w = Some "fake-jwt-token" /\
    step api_without_profile w (SettleMe 0) = Some w' /\
    token w' = None /\
    console w' = [user_error (MkError "Token expired")].
Proof.
  destruct (step api_without_profile mount _) as [w|] eqn:Hstep;
    vm_compute in Hstep; [|discriminate].
  injection Hstep as <-.
  match goal with
  | |- exists w0 w', Some ?c = Some w0 /\ _ =>
      destruct (profile_failure_logs_out api_without_profile c 0
                  (Some "fake-jwt-token") (MkError "Token expired"))
        as (w' & Hs & Ht & _ & _ & Hc & _);
      [ exact I | reflexivity | reflexivity | exists c, w' ]
  end.
  split; [reflexivity|]. split; [reflexivity|]. split; [exact Hs|].
  split; [exact Ht | exact Hc].
Defined.

(** X10. Once a profile is stored, it stays stored along every run: no
    event, neither the Logout button nor a failing request, removes it. *)
Theorem profile_is_never_removed
  (svc : Api) (evs : list event) (w w' : world) :
  run svc evs w = Some w' -> is_Some (user w) -> is_Some (user w').
Proof.
  revert w. induction evs as [|ev evs IH]; simpl; intros w.
  - intros [= <-] Hu. exact Hu.
  - destruct (step svc w ev) as [w1|] eqn:Hstep; [|discriminate].
    intros Hrun Hu. eapply IH; [exact Hrun|].
    eapply user_never_cleared; eassumption.
Qed.

Lemma profile_is_never_removed_witness :
  exists w w',
    run api [SubmitLogin "testuser" "password"; SettleMe 0] mount = Some w /\
    run api [SettleCourses 0; SettleRecs 0; ClickLogout] w = Some w' /\
    token w' = None /\ is_Some (user w').
Proof.
  destruct (run api _ mount) as [w|] eqn:Hrun;
    vm_compute in Hrun; [|discriminate].
  injection Hrun as <-.
  match goal with
  | |- exists w0 w', Some ?c = Some w0 /\ _ =>
      destruct (run api [SettleCourses 0; SettleRecs 0; ClickLogout] c)
        as [w'|] eqn:Hrun'; [|vm_compute in Hrun'; discriminate];
      exists c, w'
  end.
  split; [reflexivity|]. split; [exact Hrun'|].
  split.
  - vm_compute in Hrun'. injection Hrun' as <-. reflexivity.
  - eapply profile_is_never_removed; [exact Hrun'|]. eexists. reflexivity.
Defined.

(** X11. When a profile request resolves while a truthy token is stored,
    the profile is stored and the dashboard starts a fetch for it: a
    dashboard that is already mounted goes back to loading and has one more
    fetch in flight, otherwise a new dashboard is mounted with one fetch in
    flight. The profile is stored also when the request was made with
    another token than the one stored now. *)
Theorem profile_arrival_starts_fetch
  (svc : Api) (w : world) (k : nat) (tok : option string) (u : User) :
  App.loading (app w) = false ->
  truthy (token w) = true ->
  me_inflight w !! k = Some tok ->
  getMe svc tok = Resolved u ->
  exists w',
    step svc w (SettleMe k) = Some w' /\
    user w' = Some u /\
    token w' = token w /\
    me_inflight w' = delete k (me_inflight w) /\
    console w' = console w /\
    child w' = DashboardS
      (Dashboard.fetchData u (token w)
         match child w with
         | DashboardS ds => ds
         | _ => Dashboard.init
         end).
Proof.
  intros Hl Htr Hk Hres. cbn [step]. unfold settleMe. rewrite Hk, Hres.
  eexists. split; [reflexivity|].
  rewrite setLoading_false_loaded by exact Hl.
  do 4 (split; [reflexivity|]).
  unfold setUser, rerender, reconcile, App.render, token in *. simpl.
  rewrite Hl, Htr.
  unfold Dashboard.effect. rewrite Htr.
  destruct (child w); reflexivity.
Qed.

Lemma profile_arrival_starts_fetch_witness :
  exists w w' ds,
    step api mount (SubmitLogin "testuser" "password") = Some w /\
    step api w (SettleMe 0) = Some w' /\
    child w' = DashboardS ds /\
    Dashboard.loading ds = true /\ length (Dashboard.inflight ds) = 1%nat.
Proof.
  destruct (step api mount _) as [w|] eqn:Hstep;
    vm_compute in Hstep; [|discriminate].
  injection Hstep as <-.
  match goal with
  | |- exists w0 w' ds, Some ?c = Some w0 /\ _ =>
      destruct (profile_arrival_starts_fetch api c 0
                  (Some "fake-jwt-token") testuser
                  eq_refl eq_refl eq_refl eq_refl)
        as (w' & Hs & _ & _ & _ & _ & Hc);
      exists c, w'
  end.
  eexists. split; [reflexivity|]. split; [exact Hs|].
  split; [exact Hc|]. split; reflexivity.
Defined.

(** ** The two promises of a dashboard fetch *)

Lemma delete_insert_same {A} (l : list A) (k : nat) (x : A) :
  delete k (<[k:=x]> l) = delete k l.
Proof.
  revert k. induction l as [|a l IH]; intros [|k]; simpl; try reflexivity.
  f_equal. apply IH.
Qed.

(** X12. When both requests of a dashboard fetch are answered, the order in
    which the two promises settle does not matter: either way the fetch
    ends, with nothing logged, in the dashboard that has stopped loading
    and holds both results. *)
Theorem settlement_order_is_irrelevant
  (svc : Api) (k : nat) (st : Dashboard.state) (f : Dashboard.fetch)
  (cs rs : list Course) :
  Dashboard.inflight st !! k = Some f ->
  Dashboard.coursesData f = None ->
  Dashboard.recsData f = None ->
  getCourses svc = Resolved cs ->
  getRecommendations svc (Dashboard.userId f) (Dashboard.fetch_token f)
    = Resolved rs ->
  settle_twice svc k Dashboard.CoursesPromise Dashboard.RecsPromise st
    = Some (Dashboard.fulfilled k cs rs st, []) /\
  settle_twice svc k Dashboard.RecsPromise Dashboard.CoursesPromise st
    = Some (Dashboard.fulfilled k cs rs st, []).
Proof.
  intros Hk Hc Hr Hcs Hrs.
  assert (Hlt : (k < length (Dashboard.inflight st))%nat)
    by (eapply lookup_lt_Some, Hk).
  unfold settle_twice, Dashboard.settle. rewrite Hk. simpl.
  rewrite Hc, Hr, Hcs, Hrs. simpl.
  rewrite !list_lookup_insert_eq by exact Hlt. simpl.
  rewrite ?Hcs, ?Hrs. unfold Dashboard.fulfilled. simpl.
  rewrite !delete_insert_same. auto.
Qed.

Lemma settlement_order_is_irrelevant_witness :
  exists st,
    settle_twice api 0 Dashboard.RecsPromise Dashboard.CoursesPromise
      (Dashboard.fetchData testuser (Some "fake-jwt-token") Dashboard.init)
      = Some (st, []) /\
    settle_twice api 0 Dashboard.CoursesPromise Dashboard.RecsPromise
      (Dashboard.fetchData testuser (Some "fake-jwt-token") Dashboard.init)
      = Some (st, []) /\
    Dashboard.loading st = false /\
    length (Dashboard.courses st) = 5%nat.
Proof.
  destruct (settlement_order_is_irrelevant api 0
              (Dashboard.fetchData testuser (Some "fake-jwt-token")
                 Dashboard.init)
              _ _ _ eq_refl eq_refl eq_refl eq_refl eq_refl) as [H1 H2].
  eexists. split; [exact H2|]. split; [exact H1|]. split; reflexivity.
Defined.

(** ** Requests run out *)











(** ** Where the data on screen comes from *)

Lemma reconcile_data svc d a s :
  match s with
  | DashboardS ds =>
      shows_service_data svc ds /\
      Forall (slots_from_service svc) (Dashboard.inflight ds)
  | _ => True
  end ->
  match reconcile d a s with
  | DashboardS ds =>
      shows_service_data svc ds /\
      Forall (slots_from_service svc) (Dashboard.inflight ds)
  | _ => True
  end.
Proof.
  intros Hs. unfold reconcile.
  destruct (App.render a) as [| |u tok]; [exact I | destruct s; exact I |].
  assert (He : forall ds,
    shows_service_data svc ds /\
    Forall (slots_from_service svc) (Dashboard.inflight ds) ->
    shows_service_data svc (Dashboard.effect u tok ds) /\
    Forall (slots_from_service svc)
           (Dashboard.inflight (Dashboard.effect u tok ds))).
  { intros ds [Hshow Hfl]. unfold Dashboard.effect.
    destruct (truthy tok); [|auto]. split; [exact Hshow|]. simpl.
    apply Forall_app. split; [exact Hfl|].
    constructor; [|constructor]. intros [|] v; discriminate. }
  assert (Hinit : shows_service_data svc Dashboard.init /\
                  Forall (slots_from_service svc)
                         (Dashboard.inflight Dashboard.init)).
  { split; [left; auto | constructor]. }
  destruct s as [| |ds]; [apply He, Hinit | apply He, Hinit |].
  destruct d; [apply He, Hs | exact Hs].
Qed.

Lemma data_rerender svc d a w :
  data_from_service svc w -> App.user a = user w ->
  data_from_service svc (rerender d a w).
Proof.
  intros [Hu Hc] Ha. split.
  - unfold user. simpl. rewrite Ha. exact Hu.
  - simpl. apply reconcile_data, Hc.
Qed.

Lemma data_setLoading svc b w :
  data_from_service svc w -> data_from_service svc (setLoading b w).
Proof.
  intros Hw. unfold setLoading.
  destruct (Bool.eqb b (App.loading (app w))); [exact Hw|].
  apply data_rerender; [exact Hw | reflexivity].
Qed.

Lemma data_setToken svc v w :
  data_from_service svc w -> data_from_service svc (setToken v w).
Proof.
  intros Hw. unfold setToken.
  destruct (decide (v = token w)); [exact Hw|].
  assert (Hr : data_from_service svc
            (rerender true {| App.token := v; App.user := user w;
                              App.loading := App.loading (app w) |} w))
    by (apply data_rerender; [exact Hw | reflexivity]).
  unfold fetchUser. destruct (truthy _); [exact Hr|].
  apply data_setLoading, Hr.
Qed.

Lemma data_settle svc k p ds ds' entries :
  shows_service_data svc ds ->
  Forall (slots_from_service svc) (Dashboard.inflight ds) ->
  Dashboard.settle svc k p ds = Some (ds', entries) ->
  shows_service_data svc ds' /\
  Forall (slots_from_service svc) (Dashboard.inflight ds').
Proof.
  intros Hshow Hfl. unfold Dashboard.settle.
  destruct (Dashboard.inflight ds !! k) as [f|] eqn:Hk; [|discriminate].
  pose proof (Forall_lookup_1 _ _ _ _ Hfl Hk) as Hf.
  destruct (Dashboard.slot p f) eqn:Hslot; [discriminate|].
  destruct (Dashboard.answer svc p f) as [v|e] eqn:Hans.
  - destruct (Dashboard.slot (Dashboard.other p) f) as [o|] eqn:Ho.
    + apply Hf in Ho.
      destruct (Dashboard.both p v o) as [cs rs] eqn:Hb. intros [= <- _].
      split; [|simpl; apply Forall_delete, Hfl].
      right. simpl. destruct p; simpl in *; injection Hb as <- <-.
      * split; [exact Hans | eauto].
      * split; [exact Ho | eauto].
    + intros [= <- _]. split; [exact Hshow|]. simpl.
      apply Forall_insert; [exact Hfl|].
      intros q v' Hq. destruct p, q; simpl in *;
        try (injection Hq as <-; exact Hans);
        try (rewrite Ho in Hq; discriminate).
  - intros [= <- _]. split; [exact Hshow|]. simpl. apply Forall_delete, Hfl.
Qed.

Lemma data_step svc w ev w' :
  invariant svc w -> data_from_service svc w ->
  step svc w ev = Some w' -> data_from_service svc w'.
Proof.
  intros Hinv Hw.
  assert (Hdash : forall k p,
    settleDashboard svc k p w = Some w' -> data_from_service svc w').
  { intros k p. unfold settleDashboard.
    destruct (child w) as [| |ds] eqn:Hc; try discriminate.
    destruct (Dashboard.settle svc k p ds) as [[ds' entries]|] eqn:Hs;
      [|discriminate].
    intros [= <-]. destruct Hw as [Hu Hd]. rewrite Hc in Hd.
    split; [exact Hu|]. simpl.
    eapply data_settle; [apply Hd | apply Hd | exact Hs]. }
  destruct ev as [u p| |k|k|k]; simpl; [| | |apply Hdash..].
  - unfold submitLogin. destruct (child w) as [|ls|] eqn:Hc; try discriminate.
    assert (Hw0 : forall ls',
      data_from_service svc (with_child (LoginScreenS ls') w)).
    { intros ls'. destruct Hw as [Hu _]. split; [exact Hu | exact I]. }
    destruct (LoginScreen.handleLogin svc _) as [ls' [t|]]; intros [= <-].
    + apply data_setToken, Hw0.
    + apply Hw0.
  - unfold clickLogout. destruct (child w) as [| |ds]; try discriminate.
    destruct (Dashboard.loading ds); [discriminate|]. intros [= <-].
    apply data_setToken, Hw.
  - unfold settleMe.
    destruct (me_inflight w !! k) as [tok|] eqn:Hk; [|discriminate].
    destruct Hinv as (_ & _ & _ & Hfly & _).
    eapply Forall_lookup_1 in Hfly as [Htr _]; [|exact Hk].
    destruct (getMe svc tok) as [u|e] eqn:Hme; intros [= <-].
    + apply data_setLoading. destruct Hw as [_ Hd]. split.
      * intros u' [= <-]. eauto.
      * simpl. apply reconcile_data, Hd.
    + apply data_setLoading, data_setToken. exact Hw.
Qed.

(** X14. In every state the application reaches, a stored profile is one
    that the service returned for a truthy token, and a mounted dashboard
    holds either no courses and no recommendations, or the catalog of the
    service together with a list of recommendations of the service: never
    the result of one request without the other. *)
Theorem shown_data_comes_from_service
  (svc : Api) (evs : list event) (w : world) :
  run svc evs mount = Some w ->
  (forall u, user w = Some u ->
             exists tok, truthy tok = true /\ getMe svc tok = Resolved u) /\
  (forall ds, child w = DashboardS ds -> shows_service_data svc ds).
Proof.
  intros Hrun.
  assert (Hd : data_from_service svc w).
  { revert Hrun.
    assert (H0 : data_from_service svc mount)
      by (split; [intros u; discriminate | exact I]).
    revert H0. generalize (invariant_mount svc). generalize mount.
    induction evs as [|ev evs IH]; simpl; intros w0 Hinv H0.
    - intros [= <-]. exact H0.
    - destruct (step svc w0 ev) as [w1|] eqn:Hstep; [|discriminate].
      apply IH.
      + eapply invariant_step; eassumption.
      + eapply data_step; eassumption. }
  destruct Hd as [Hu Hc]. split; [exact Hu|].
  intros ds Hds. rewrite Hds in Hc. apply Hc.
Qed.

Lemma shown_data_comes_from_service_witness :
  exists w ds,
    run api_without_recommendations
      [SubmitLogin "testuser" "password"; SettleMe 0;
       SettleCourses 0; SettleRecs 0] mount = Some w /\
    child w = DashboardS ds /\
    Dashboard.courses ds = [] /\ Dashboard.recommendations ds = [].
Proof.
  destruct (run api_without_recommendations _ mount) as [w|] eqn:Hrun;
    [|vm_compute in Hrun; discriminate].
  destruct (shown_data_comes_from_service _ _ w Hrun) as [_ Hshow].
  vm_compute in Hrun. injection Hrun as <-.
  eexists. eexists. split; [reflexivity|]. split; [reflexivity|].
  destruct (Hshow _ eq_refl) as [[Hc Hr] | [Hc (uid & tok & Hr)]].
  - split; [exact Hc | exact Hr].
  - discriminate Hr.
Defined.
